(** * virtual_webcam.py: a shallow embedding of the frame pipeline

    The development follows [virtual_webcam.py] function by function:
    [load_config], [load_images], [get_imagefilters] and the blocks of
    [mainloop] (mask averaging, mask post-processing, compositing, the
    animation timers, the overlay refresh).

    Conventions of the embedding.
    - Python values read from [config.yaml] are the inductive [pyval];
      the [config] dict is a [gmap string pyval].
    - numpy [float64] is Rocq's primitive binary64 [float]; [uint8] and
      [int32] array elements are [Z].
    - An exception is an [exn]; a call returns an [outcome].  Code that
      mutates the module's globals is a state transformer [St] which keeps
      the mutations made before an exception was raised.
    - What the program obtains from outside (the file system, the camera,
      the clock, the segmentation model) is a [world] record, one per
      iteration; library functions the file does not define ([cv2.resize],
      [cv2.dilate], [filters.get_filter], ...) are section variables. *)

From Stdlib Require Import ZArith List String Bool Lia.
From Stdlib Require Import Floats.PrimFloat Floats.SpecFloat Floats.FloatOps.
From Stdlib Require Floats.FloatAxioms.
From stdpp Require Import base option list gmap strings.
Import ListNotations.

Set Warnings "-register-all,-inexact-float,-notation-incompatible-prefix".

Local Open Scope string_scope.
Local Open Scope Z_scope.

(** ** Exceptions and outcomes *)

Inductive exn : Type :=
| OSError | TypeError | KeyError | IndexError | ValueError
| ZeroDivisionError | OverflowError | AssertionError
| YAMLError | CvError | SystemExit.

#[global] Instance exn_eq_dec : EqDecision exn.
Proof. solve_decision. Defined.

Inductive outcome (A : Type) : Type :=
| Ret (a : A)
| Raise (e : exn).
Arguments Ret {A} a.
Arguments Raise {A} e.

Definition obind {A B} (m : outcome A) (k : A -> outcome B) : outcome B :=
  match m with Ret a => k a | Raise e => Raise e end.

(** [St S A]: a computation over the mutable state [S]. *)
Definition St (S A : Type) : Type := S -> outcome A * S.

Definition ret {S A} (a : A) : St S A := fun s => (Ret a, s).
Definition raise {S A} (e : exn) : St S A := fun s => (Raise e, s).
Definition bind {S A B} (m : St S A) (k : A -> St S B) : St S B :=
  fun s => match m s with
           | (Ret a, s') => k a s'
           | (Raise e, s') => (Raise e, s')
           end.
Definition get {S} : St S S := fun s => (Ret s, s).
Definition put {S} (s : S) : St S unit := fun _ => (Ret tt, s).
Definition lift {S A} (o : outcome A) : St S A := fun s => (o, s).

Declare Scope py_scope.
Delimit Scope py_scope with py.
Notation "x <- m ;; k" := (bind m (fun x => k))
  (at level 100, m at next level, right associativity) : py_scope.
Notation "m ;;; k" := (bind m (fun _ => k))
  (at level 100, right associativity) : py_scope.

(** [try: body except e: handler] *)
Definition try_except {S A} (body : St S A) (e : exn) (handler : St S A) : St S A :=
  fun s => match body s with
           | (Raise e', s') => if decide (e' = e) then handler s' else (Raise e', s')
           | r => r
           end.

(** ** float64 helpers *)

(** An integer as a float64, rounded to nearest even. *)
Definition Z_to_float (z : Z) : float :=
  SF2Prim (binary_normalize prec emax z 0 false).

(** The integer part of a float (truncation toward zero); 0 for nan and
    the infinities. *)
Definition float_trunc (f : float) : Z :=
  match Prim2SF f with
  | S754_finite s m e =>
      let v := if 0 <=? e then Z.pos m * 2 ^ e else Z.pos m / 2 ^ (- e) in
      if s then - v else v
  | _ => 0
  end.

(** [Some z] when the float is exactly the integer [z]. *)
Definition float_integral (f : float) : option Z :=
  match Prim2SF f with
  | S754_zero _ => Some 0
  | S754_finite s m e =>
      if 0 <=? e then Some (if s then - (Z.pos m * 2 ^ e) else Z.pos m * 2 ^ e)
      else if Z.pos m mod 2 ^ (- e) =? 0
           then Some (if s then - (Z.pos m / 2 ^ (- e)) else Z.pos m / 2 ^ (- e))
           else None
  | _ => None
  end.

(** Storing a float64 into a uint8 array: the value is truncated and
    kept modulo 256. *)
Definition cast_uint8 (f : float) : Z := float_trunc f mod 256.

(** ** Python values *)

Inductive pyval : Type :=
| PNone
| PBool (b : bool)
| PInt (z : Z)
| PFloat (f : float)
| PStr (s : string)
| PList (l : list pyval)
| PDict (d : list (string * pyval)).

(** Truth value of an object, as tested by [if x:]. *)
Definition py_truthy (v : pyval) : bool :=
  match v with
  | PNone => false
  | PBool b => b
  | PInt z => negb (z =? 0)
  | PFloat f => negb (PrimFloat.eqb f 0%float)
  | PStr s => negb (String.eqb s "")
  | PList l => match l with [] => false | _ => true end
  | PDict d => match d with [] => false | _ => true end
  end.

(** [x == v] for a float [x]: numbers compare by value, anything else is
    different from a float. *)
Definition float_eq_py (x : float) (v : pyval) : bool :=
  match v with
  | PFloat y => PrimFloat.eqb x y
  | PInt z => match float_integral x with Some z' => z' =? z | None => false end
  | PBool b => match float_integral x with
               | Some z' => z' =? (if b then 1 else 0)
               | None => false
               end
  | _ => false
  end.

(** The float operand a number contributes to float arithmetic. *)
Definition py_float_operand (v : pyval) : outcome float :=
  match v with
  | PFloat f => Ret f
  | PInt z =>
      let f := Z_to_float z in
      if PrimFloat.is_infinity f then Raise OverflowError else Ret f
  | PBool b => Ret (if b then 1%float else 0%float)
  | _ => Raise TypeError
  end.

(** [key.endswith(suffix)] *)
Definition endswith (key suffix : string) : bool :=
  let n := String.length key in
  let k := String.length suffix in
  (k <=? n)%nat && String.eqb (substring (n - k) k key) suffix.

(** The [config] dict. *)
Abbreviation dict := (gmap string pyval).

(** [config.get(key, default)] *)
Definition dict_get (d : dict) (key : string) (default : pyval) : pyval :=
  match d !! key with Some v => v | None => default end.

(** [config[key]] *)
Definition dict_item (d : dict) (key : string) : outcome pyval :=
  match d !! key with Some v => Ret v | None => Raise KeyError end.

(** ** Arrays *)

(** A two-dimensional numpy array, row-major. *)
Record ndarray (A : Type) : Type := NdArray {
  nd_h : nat;
  nd_w : nat;
  nd_data : list A
}.
Arguments NdArray {A} nd_h nd_w nd_data.
Arguments nd_h {A} n.
Arguments nd_w {A} n.
Arguments nd_data {A} n.

(** The int32 mask the segmentation step yields, and a float64 mask. *)
Abbreviation imask := (ndarray Z).
Abbreviation fmask := (ndarray float).

Definition nd_shape {A} (a : ndarray A) : nat * nat := (nd_h a, nd_w a).

Definition same_shape {A B} (a : ndarray A) (b : ndarray B) : bool :=
  (nd_h a =? nd_h b)%nat && (nd_w a =? nd_w b)%nat.

Definition nd_map {A B} (f : A -> B) (a : ndarray A) : ndarray B :=
  NdArray (nd_h a) (nd_w a) (map f (nd_data a)).

(** A uint8 image of shape (height, width, channels): one list of channel
    values per pixel, row-major. *)
Record image : Type := Image {
  img_h : nat;
  img_w : nat;
  img_c : nat;
  img_px : list (list Z)
}.

Definition img_shape2 (i : image) : nat * nat := (img_h i, img_w i).

(** Every pixel has [img_c] channels, each a uint8, and there are
    [img_h * img_w] pixels. *)
Definition is_uint8 (v : Z) : Prop := 0 <= v < 256.
Definition image_wf (i : image) : Prop :=
  length (img_px i) = (img_h i * img_w i)%nat /\
  Forall (fun px => length px = img_c i /\ Forall is_uint8 px) (img_px i).

(** [cv2.INTER_NEAREST] and [cv2.INTER_LINEAR]. *)
Inductive interp : Type := INTER_NEAREST | INTER_LINEAR.

(** An image-to-image callable, as [get_imagefilters] returns them. *)
Abbreviation callable := (image -> outcome image).

(** A filter of the [filters] module: [f(frame, *args, **kwargs)]. *)
Abbreviation filterfn := (image -> list pyval -> list (string * pyval) -> outcome image).

(** What a Python variable of [load_images] may hold for its
    [interpolation_method] parameter: a configuration value, a cv2
    constant, or a list of callables. *)
Inductive pyobj : Type :=
| ObjVal (v : pyval)
| ObjInterp (i : interp)
| ObjCallables (fs : list callable).

(** [o == s] for a string literal [s]. *)
Definition obj_eq_str (o : pyobj) (s : string) : bool :=
  match o with
  | ObjVal (PStr s') => String.eqb s' s
  | _ => false
  end.

(** ** The outside world, as one iteration sees it

    The file system is taken to stay as it is while one iteration runs:
    the two [os.stat] calls of [load_config] and of [load_images] see the
    same file. *)

(** Reading [config.yaml]: [open] or [yaml.load] raises, or the document
    is a mapping with string keys. *)
Inductive config_read : Type :=
| ReadRaises (e : exn)
| ReadMapping (yconfig : dict).

Record world : Type := World {
  (** [os.stat("config.yaml").st_mtime], [None] when it raises OSError *)
  config_stat : option float;
  config_file : config_read;
  (** [os.stat(path)]: [(st_mtime, S_ISDIR(st_mode))], [None] for OSError *)
  fs_stat : string -> option (float * bool);
  (** [glob.glob(pattern)] *)
  fs_glob : string -> list string;
  (** [cv2.imread(path, IMREAD_UNCHANGED)], [None] when it cannot decode *)
  cv2_imread : string -> option image;
  (** [cap.read()] *)
  cap_read : bool * image;
  (** lines 240-273: the segmentation model on the frame, thresholded *)
  segmentation : image -> pyval -> imask;
  (** the successive values of [time.time()] at lines 306, 308, 351, 353 *)
  time_306 : float;
  time_308 : float;
  time_351 : float;
  time_353 : float;
  (** lines 323-342: the halo drawn over the frame at the mask's center *)
  halo_block : fmask -> image -> outcome image
}.

(** ** load_config *)

(** Lines 52-54: every key ending in [_mtime] is set to 0. *)
Definition force_image_reload (config : dict) : dict :=
  map_imap (fun key v => Some (if endswith key "_mtime" then PInt 0 else v)) config.

(** [load_config(oldconfig)]: the state is the dict object [oldconfig],
    which the function updates in place and returns. *)
Definition load_config (w : world) : St dict unit :=
  try_except
    (match config_stat w with
     | None => raise OSError
     | Some st_mtime =>
         config <- get ;;
         if negb (float_eq_py st_mtime (dict_get config "mtime" PNone)) then
           put (<["mtime" := PFloat st_mtime]> config) ;;;
           match config_file w with
           | ReadRaises e => raise e
           | ReadMapping yconfig =>
               config <- get ;;
               put (force_image_reload (yconfig ∪ config))
           end
         else ret tt
     end)%py
    OSError (ret tt).

(** ** The image cache and the filter chain resolver *)

Section Pipeline.

(** The collaborators this file imports. *)
Variable get_filter : pyval -> outcome filterfn.
Variable cv2_resize : image -> Z * Z -> interp -> outcome image.
Variable cv2_flip : image -> Z -> image.
Variable cv2_dilate : fmask -> pyval -> outcome fmask.
Variable cv2_erode : fmask -> pyval -> outcome fmask.
Variable cv2_blur : fmask -> pyval -> outcome fmask.

(** The capture resolution (module globals [width] and [height]). *)
Variable width height : Z.

(** [try: x = f(x) except TypeError: pass] *)
Definition apply_filter (f : callable) (x : image) : outcome image :=
  match f x with
  | Raise TypeError => Ret x
  | r => r
  end.

(** [for image_filter in image_filters: try: x = image_filter(x) ...] *)
Fixpoint apply_filters (fs : list callable) (x : image) : outcome image :=
  match fs with
  | [] => Ret x
  | f :: fs' => obind (apply_filter f x) (apply_filters fs')
  end.

(** Line 91: the first and the third channel change places. *)
Definition swap_red_blue (i : image) : outcome image :=
  if (img_c i <? 3)%nat then Raise IndexError
  else Ret (Image (img_h i) (img_w i) (img_c i)
              (map (fun px => match px with
                              | b :: g :: r :: rest => r :: g :: b :: rest
                              | _ => px
                              end) (img_px i))).

(** Lines 84-92, the body of the decoding loop.  The parameter
    [interpolation_method] is a local variable the body assigns to. *)
Definition decode_one (w : world) (interpolation_method : pyobj)
    (filename : string) : outcome (image * pyobj) :=
  let image_raw := cv2_imread w filename in
  let interpolation_method := ObjInterp INTER_LINEAR in
  let interpolation_method :=
    if obj_eq_str interpolation_method "NEAREST"
    then ObjInterp INTER_NEAREST else interpolation_method in
  match image_raw, interpolation_method with
  | None, _ => Raise CvError
  | Some raw, ObjInterp m =>
      obind (cv2_resize raw (width, height) m) (fun image =>
      obind (swap_red_blue image) (fun image =>
      Ret (image, interpolation_method)))
  | Some _, _ => Raise TypeError
  end.

Fixpoint decode_all (w : world) (interpolation_method : pyobj)
    (filenames : list string) : outcome (list image) :=
  match filenames with
  | [] => Ret []
  | filename :: rest =>
      obind (decode_one w interpolation_method filename) (fun '(image, im) =>
      obind (decode_all w im rest) (fun images =>
      Ret (image :: images)))
  end.

(** Lines 96-102. *)
Fixpoint filter_all (image_filters : list callable) (images : list image)
    : outcome (list image) :=
  match images with
  | [] => Ret []
  | x :: rest =>
      obind (apply_filters image_filters x) (fun x' =>
      obind (filter_all image_filters rest) (fun rest' =>
      Ret (x' :: rest')))
  end.

(** Lines 82-105: decode, remember the mtime, filter. *)
Definition reload_images (w : world) (st_mtime : float) (filenames : list string)
    (imageset_name : string) (interpolation_method : pyobj)
    (image_filters : list callable) : St dict (option (list image)) :=
  (images <- lift (decode_all w interpolation_method filenames) ;;
   config <- get ;;
   put (<[imageset_name +:+ "_mtime" := PFloat st_mtime]> config) ;;;
   images <- lift (filter_all image_filters images) ;;
   ret (Some images))%py.

(** [load_images(images, image_name, height, width, imageset_name,
    interpolation_method, image_filters)].  The state is the global
    [config]; the result is [None] or a list of images. *)
Definition load_images (w : world) (images : option (list image))
    (image_name : string) (imageset_name : string)
    (interpolation_method : pyobj) (image_filters : list callable)
    : St dict (option (list image)) :=
  try_except
    (match fs_stat w image_name with
     | None => raise OSError
     | Some (st_mtime, is_dir) =>
         config <- get ;;
         if negb (float_eq_py st_mtime
                    (dict_get config (imageset_name +:+ "_mtime") PNone)) then
           put (<[imageset_name +:+ "_idx" := PInt 0]> config) ;;;
           let filenames := [image_name] in
           if is_dir then
             let filenames := fs_glob w (image_name +:+ "/*.*") in
             match filenames with
             | [] => ret None
             | _ => reload_images w st_mtime filenames imageset_name
                      interpolation_method image_filters
             end
           else reload_images w st_mtime filenames imageset_name
                  interpolation_method image_filters
         else ret images
     end)%py
    OSError (ret None).

(** *** get_imagefilters *)

(** The variables [_image_filter], [args] and [kwargs] of
    [get_imagefilters]: each lambda appended at line 132 refers to the
    variables, not to the values they had when it was created. *)
Record closure_vars : Type := ClosureVars {
  cv_image_filter : filterfn;
  cv_args : list pyval;
  cv_kwargs : list (string * pyval)
}.

(** An entry of the list under construction. *)
Inductive filter_slot : Type :=
| SlotFilter (f : filterfn)     (* line 114: the filter itself *)
| SlotLambda.                   (* line 132: a lambda over the variables *)

(** Iterating over a configuration value. *)
Definition py_iter (v : pyval) : outcome (list pyval) :=
  match v with
  | PList l => Ret l
  | PStr s => Ret (map (fun c => PStr (String c EmptyString)) (list_ascii_of_string s))
  | PDict d => Ret (map (fun kv => PStr (fst kv)) d)
  | _ => Raise TypeError
  end.

Fixpoint get_imagefilters_loop (filter_list : list pyval)
    (image_filters : list filter_slot) (vars : option closure_vars)
    : outcome (list filter_slot * option closure_vars) :=
  match filter_list with
  | [] => Ret (image_filters, vars)
  | filters_item :: rest =>
      match filters_item with
      | PStr _ =>
          obind (get_filter filters_item) (fun f =>
          get_imagefilters_loop rest (image_filters ++ [SlotFilter f]) vars)
      | PList [] => Raise IndexError
      | PList (filter_name :: params) =>
          let '(args, kwargs) :=
            match params with
            | [PList l] => (l, [])
            | [PDict d] => ([], d)
            | _ => (params, [])
            end in
          obind (get_filter filter_name) (fun f =>
          get_imagefilters_loop rest (image_filters ++ [SlotLambda])
            (Some (ClosureVars f args kwargs)))
      | _ => get_imagefilters_loop rest image_filters vars
      end
  end.

(** Calling an entry once the loop is over. *)
Definition call_slot (vars : option closure_vars) (s : filter_slot) : callable :=
  fun frame =>
    match s, vars with
    | SlotFilter f, _ => f frame [] []
    | SlotLambda, Some v => cv_image_filter v frame (cv_args v) (cv_kwargs v)
    | SlotLambda, None => Raise TypeError
    end.

Definition get_imagefilters (filter_list : pyval) : outcome (list callable) :=
  obind (py_iter filter_list) (fun items =>
  obind (get_imagefilters_loop items [] None) (fun '(slots, vars) =>
  Ret (map (call_slot vars) slots))).

(** ** mainloop *)

(** The module's globals. *)
Record store : Type := Store {
  config : dict;
  masks : list imask;
  replacement_bgs : option (list image);
  overlays : option (list image)
}.

Definition on_config {A} (m : St dict A) : St store A :=
  fun s => let '(r, c) := m (config s) in
           (r, Store c (masks s) (replacement_bgs s) (overlays s)).
Definition set_masks (ms : list imask) : St store unit :=
  fun s => (Ret tt, Store (config s) ms (replacement_bgs s) (overlays s)).
Definition set_replacement_bgs (v : option (list image)) : St store unit :=
  fun s => (Ret tt, Store (config s) (masks s) v (overlays s)).
Definition set_overlays (v : option (list image)) : St store unit :=
  fun s => (Ret tt, Store (config s) (masks s) (replacement_bgs s) v).

(** *** Lines 275-280: averaging over the last masks *)

(** [max(1, v)] *)
Definition py_max_1 (v : pyval) : outcome pyval :=
  match v with
  | PInt k => Ret (if 1 <? k then PInt k else PInt 1)
  | PFloat f => Ret (if PrimFloat.ltb 1 f then PFloat f else PInt 1)
  | PBool _ => Ret (PInt 1)
  | _ => Raise TypeError
  end.

(** [l[:n]] *)
Definition py_slice_to {A} (l : list A) (n : pyval) : outcome (list A) :=
  match n with
  | PNone => Ret l
  | PInt k => Ret (if k <? 0 then take (length l - Z.to_nat (- k)) l
                   else take (Z.to_nat k) l)
  | PBool b => Ret (take (if b then 1 else 0)%nat l)
  | _ => Raise TypeError
  end.

(** The running sum of [np.mean]: one more mask added, pixel by pixel. *)
Definition add_mask (acc : list float) (x : imask) : list float :=
  zip_with PrimFloat.add acc (map Z_to_float (nd_data x)).

(** [np.mean(masks, axis=0)]: the masks are summed as float64, one
    after the other, and the sum is divided by their number.  Masks of
    different shapes do not form an array.  (The list is never empty
    where the program calls this.) *)
Definition np_mean_axis0 (masks : list imask) : outcome fmask :=
  match masks with
  | [] => Raise ValueError
  | m :: ms =>
      if forallb (same_shape m) ms then
        let total := fold_left add_mask ms (map Z_to_float (nd_data m)) in
        let count := Z_to_float (Z.of_nat (length masks)) in
        Ret (NdArray (nd_h m) (nd_w m) (map (fun t => PrimFloat.div t count) total))
      else Raise ValueError
  end.

Definition average_masks (mask : imask) : St store fmask :=
  (s <- get ;;
   set_masks (mask :: masks s) ;;;
   num_average_masks <- lift (py_max_1 (dict_get (config s) "average_masks" (PInt 3))) ;;
   masks' <- lift (py_slice_to (mask :: masks s) num_average_masks) ;;
   set_masks masks' ;;;
   lift (np_mean_axis0 masks'))%py.

(** *** Lines 282-290: post-processing of the mask *)

Definition refine (config : dict) (mask : fmask) : outcome fmask :=
  let mask := nd_map (fun x => PrimFloat.mul x 255) mask in
  obind (dict_item config "dilate") (fun dilate =>
  obind (if py_truthy dilate then cv2_dilate mask dilate else Ret mask) (fun mask =>
  obind (dict_item config "erode") (fun erode =>
  obind (if py_truthy erode then cv2_erode mask erode else Ret mask) (fun mask =>
  obind (dict_item config "blur") (fun blur =>
  obind (if py_truthy blur then cv2_blur mask blur else Ret mask) (fun mask =>
  Ret (nd_map (fun x => PrimFloat.div x 255) mask))))))).

Definition invert_mask (mask : fmask) : fmask :=
  nd_map (fun x => PrimFloat.sub 1 x) mask.
(** *** Lines 301-304 and 344-349: compositing *)

(** [l[i]] for a list: negative indices count from the end. *)
Definition py_index {A} (l : list A) (i : pyval) : outcome A :=
  let at_ (z : Z) : outcome A :=
    let n := Z.of_nat (length l) in
    let z' := if z <? 0 then z + n else z in
    if (0 <=? z') && (z' <? n)
    then match l !! Z.to_nat z' with Some a => Ret a | None => Raise IndexError end
    else Raise IndexError in
  match i with
  | PInt z => at_ z
  | PBool b => at_ (if b then 1 else 0)
  | _ => Raise TypeError
  end.

(** Channel [c] of one pixel of [frame * w1 + other * w2], stored back
    into the frame's pixel as a uint8. *)
Definition blend_pixel (c : nat) (fa oa : list Z * float) : list Z :=
  <[c := cast_uint8
           (PrimFloat.add
              (PrimFloat.mul (Z_to_float (nth c (fst fa) 0)) (snd fa))
              (PrimFloat.mul (Z_to_float (nth c (fst oa) 0)) (snd oa)))]> (fst fa).

(** One pass of [frame[:,:,c] = frame[:,:,c] * w1 + other[:,:,c] * w2],
    evaluated left to right; the float64 result is stored back into the
    uint8 frame.  The operands must have the frame's height and width
    (numpy's broadcasting of axes of length one is left out). *)
Definition blend_channel (c : nat) (frame : image) (w1 : fmask)
    (other : outcome image) (w2 : fmask) : outcome image :=
  if (img_c frame <=? c)%nat then Raise IndexError
  else if negb ((img_h frame =? nd_h w1)%nat && (img_w frame =? nd_w w1)%nat)
  then Raise ValueError
  else
    obind other (fun other =>
    if (img_c other <=? c)%nat then Raise IndexError
    else if negb ((img_h other =? nd_h w2)%nat && (img_w other =? nd_w w2)%nat
                  && (img_h frame =? img_h other)%nat
                  && (img_w frame =? img_w other)%nat)
    then Raise ValueError
    else
      Ret (Image (img_h frame) (img_w frame) (img_c frame)
             (zip_with (blend_pixel c)
                (zip (img_px frame) (nd_data w1))
                (zip (img_px other) (nd_data w2))))).

(** Lines 301-304: [for c in range(3)] over the background. *)
Definition composite_background (frame : image) (mask mask_inv : fmask)
    (replacement_bgs : list image) (replacement_bgs_idx : pyval)
    : outcome image :=
  fold_left
    (fun acc c =>
       obind acc (fun frame =>
       blend_channel c frame mask
         (py_index replacement_bgs replacement_bgs_idx) mask_inv))
    [0; 1; 2]%nat (Ret frame).

(** [overlay[:,:,3] / 255.0] *)
Definition overlay_alpha (overlay : image) : fmask :=
  NdArray (img_h overlay) (img_w overlay)
    (map (fun px => PrimFloat.div (Z_to_float (nth 3 px 0)) 255) (img_px overlay)).

(** Lines 345-349. *)
Definition composite_overlay (frame : image) (overlays : list image)
    (overlays_idx : pyval) : outcome image :=
  obind (py_index overlays overlays_idx) (fun overlay =>
  if negb (img_c overlay =? 4)%nat then Raise AssertionError
  else
    let alpha := overlay_alpha overlay in
    fold_left
      (fun acc c =>
         obind acc (fun frame =>
         blend_channel c frame (invert_mask alpha) (Ret overlay) alpha))
      [0; 1; 2]%nat (Ret frame)).

(** *** Lines 306-308 and 351-353: the animation timers *)

(** [1.0 / v] *)
Definition py_one_over (v : pyval) : outcome float :=
  obind (py_float_operand v) (fun f =>
  if PrimFloat.eqb f 0 then Raise ZeroDivisionError
  else Ret (PrimFloat.div 1 f)).

(** [now - last > 1.0 / fps] *)
Definition advance_due (now : float) (last fps : pyval) : outcome bool :=
  obind (py_float_operand last) (fun last_f =>
  obind (py_one_over fps) (fun interval =>
  Ret (PrimFloat.ltb interval (PrimFloat.sub now last_f)))).

(** [(idx + 1) % n] for the index that has just been used at line 304
    or 345, hence an int or a bool. *)
Definition py_next_index (idx : pyval) (n : nat) : outcome pyval :=
  let next (z : Z) :=
    if (n =? 0)%nat then Raise ZeroDivisionError
    else Ret (PInt ((z + 1) mod Z.of_nat n)) in
  match idx with
  | PInt z => next z
  | PBool b => next (if b then 1 else 0)
  | _ => Raise TypeError
  end.

(** [if time.time() - config.get(last_key, 0) > 1.0 / config.get(fps_key, 1):
       config[idx_key] = (idx + 1) % n
       config[last_key] = time.time()] *)
Definition advance_index (idx_key last_key fps_key : string) (idx : pyval)
    (n : nat) (t_test t_store : float) : St dict unit :=
  (config <- get ;;
   due <- lift (advance_due t_test (dict_get config last_key (PInt 0))
                  (dict_get config fps_key (PInt 1))) ;;
   if due : bool then
     next <- lift (py_next_index idx n) ;;
     put (<[last_key := PFloat t_store]> (<[idx_key := next]> config))
   else ret tt)%py.

Definition advance_background (w : world) (idx : pyval) (n : nat) : St dict unit :=
  advance_index "replacement_bgs_idx" "last_frame_bg" "background_fps"
    idx n (time_306 w) (time_308 w).

Definition advance_overlay (w : world) (idx : pyval) (n : nat) : St dict unit :=
  advance_index "overlays_idx" "last_frame_overlay" "overlay_fps"
    idx n (time_351 w) (time_353 w).
(** *** Lines 355-358: the debug view of the mask *)

Definition show_mask (frame : image) (mask : fmask) : outcome image :=
  if (img_c frame <? 3)%nat then Raise IndexError
  else if negb ((img_h frame =? nd_h mask)%nat && (img_w frame =? nd_w mask)%nat)
  then Raise ValueError
  else
    Ret (Image (img_h frame) (img_w frame) (img_c frame)
           (zip_with
              (fun px m =>
                 let v := cast_uint8 (PrimFloat.mul m 255) in
                 v :: v :: v :: drop 3 px)
              (img_px frame) (nd_data mask))).

(** *** The iteration *)

(** A path handed to [os.stat]. *)
Definition py_path (v : pyval) : outcome string :=
  match v with
  | PStr s => Ret s
  | _ => Raise TypeError
  end.

(** [frame[...,::-1]] *)
Definition reverse_channels (frame : image) : image :=
  Image (img_h frame) (img_w frame) (img_c frame) (map (@rev Z) (img_px frame)).

(** Lines 219-222: [replacement_bgs = load_images(replacement_bgs, ...)] *)
Definition refresh_background (w : world) (image_name : string)
    (interpolation_method : pyval) (image_filters : list callable)
    : St store (option (list image)) :=
  (s <- get ;;
   bgs <- on_config (load_images w (replacement_bgs s) image_name "replacement_bgs"
                       (ObjVal interpolation_method) image_filters) ;;
   set_replacement_bgs bgs ;;;
   ret bgs)%py.

(** Lines 320-321: [overlays = load_images(overlays, ..., "overlays",
    get_imagefilters(...))].  The sixth positional argument is the
    parameter [interpolation_method]; [image_filters] keeps its default. *)
Definition refresh_overlays (w : world) (overlay_image : string)
    (overlay_filters : list callable) : St store (option (list image)) :=
  (s <- get ;;
   ovs <- on_config (load_images w (overlays s) overlay_image "overlays"
                       (ObjCallables overlay_filters) []) ;;
   set_overlays ovs ;;;
   ret ovs)%py.

(** Lines 240-360, with [replacement_bgs] a list.  The result is the
    frame handed to [fakewebcam.schedule_frame]. *)
Definition mainloop_rest (w : world) (frame : image) (bgs : list image)
    : St store image :=
  (s <- get ;;
   threshold <- lift (dict_item (config s) "segmentation_threshold") ;;
   let mask := segmentation w frame threshold in
   mask <- average_masks mask ;;
   mask <- lift (refine (config s) mask) ;;
   let mask_inv := invert_mask mask in
   image_filters <- lift (get_imagefilters
                            (dict_get (config s) "foreground_filters" (PList []))) ;;
   frame <- lift (apply_filters image_filters frame) ;;
   let replacement_bgs_idx := dict_get (config s) "replacement_bgs_idx" (PInt 0) in
   frame <- lift (composite_background frame mask mask_inv bgs replacement_bgs_idx) ;;
   on_config (advance_background w replacement_bgs_idx (length bgs)) ;;;
   s <- get ;;
   image_filters <- lift (get_imagefilters
                            (dict_get (config s) "result_filters" (PList []))) ;;
   frame <- lift (apply_filters image_filters frame) ;;
   let overlays_idx := dict_get (config s) "overlays_idx" (PInt 0) in
   let overlay_image := dict_get (config s) "overlay_image" (PStr "") in
   overlay_filters <- lift (get_imagefilters
                              (dict_get (config s) "overlay_filters" (PList []))) ;;
   overlay_image <- lift (py_path overlay_image) ;;
   ovs <- refresh_overlays w overlay_image overlay_filters ;;
   frame <- lift (halo_block w mask frame) ;;
   frame <- match ovs with
            | Some ((_ :: _) as ovl) =>
                frame <- lift (composite_overlay frame ovl overlays_idx) ;;
                on_config (advance_overlay w overlays_idx (length ovl)) ;;;
                ret frame
            | _ => ret frame
            end ;;
   s <- get ;;
   if py_truthy (dict_get (config s) "debug_show_mask" (PBool false))
   then lift (show_mask frame mask)
   else ret frame)%py.

(** [mainloop()] *)
Definition mainloop (w : world) : St store image :=
  (on_config (load_config w) ;;;
   let '(success, frame) := cap_read w in
   if negb success then raise SystemExit
   else
     s <- get ;;
     let frame := if py_truthy (dict_get (config s) "flip_horizontal" PNone)
                  then cv2_flip frame 1 else frame in
     let frame := if py_truthy (dict_get (config s) "flip_vertical" PNone)
                  then cv2_flip frame 0 else frame in
     image_filters <- lift (get_imagefilters
                              (dict_get (config s) "background_filters" (PList []))) ;;
     image_name <- lift (py_path (dict_get (config s) "background_image"
                                    (PStr "background.jpg"))) ;;
     bgs <- refresh_background w image_name
              (dict_get (config s) "background_interpolation_method" PNone)
              image_filters ;;
     let frame := reverse_channels frame in
     match bgs with
     | Some bgs => mainloop_rest w frame bgs
     | None =>
         match image_filters with
         | [] => ret frame
         | _ =>
             replacement_bg <- lift (apply_filters image_filters frame) ;;
             set_replacement_bgs (Some [replacement_bg]) ;;;
             mainloop_rest w frame [replacement_bg]
         end
     end)%py.

(** Successive iterations, one world each; an exception ends the
    program (only KeyboardInterrupt is handled at lines 363-368). *)
Fixpoint run (ws : list world) (s : store) : outcome (list image) * store :=
  match ws with
  | [] => (Ret [], s)
  | w :: ws' =>
      match mainloop w s with
      | (Ret frame, s') =>
          match run ws' s' with
          | (Ret frames, s'') => (Ret (frame :: frames), s'')
          | r => r
          end
      | (Raise e, s') => (Raise e, s')
      end
  end.

End Pipeline.

(** ** Start-up *)

(** Lines 24-35. *)
Definition default_config : dict :=
  list_to_map
    [("width", PNone); ("height", PNone); ("erode", PInt 0); ("blur", PInt 0);
     ("segmentation_threshold", PFloat 0.75); ("blur_background", PInt 0);
     ("background_image", PStr "background.jpg");
     ("virtual_video_device", PStr "/dev/video2");
     ("real_video_device", PStr "/dev/video0");
     ("average_masks", PInt 3)].

(** Lines 141-151: the globals when the first iteration starts. *)
Definition startup (w : world) : outcome unit * store :=
  let '(r, c) := load_config w default_config in
  (r, Store c [] None None).

(** ** Concrete collaborators and worlds for evaluation *)

Module Fixture.

(** A one-pixel RGB image. *)
Definition px1 (r g b : Z) : image := Image 1 1 3 [[r; g; b]].
(** A one-pixel RGBA image. *)
Definition px1a (r g b a : Z) : image := Image 1 1 4 [[r; g; b; a]].

(** The filter "invert", and no other. *)
Definition invert : filterfn :=
  fun frame _ _ =>
    Ret (Image (img_h frame) (img_w frame) (img_c frame)
           (map (map (fun v => 255 - v)) (img_px frame))).
Definition get_filter (name : pyval) : outcome filterfn :=
  match name with
  | PStr "invert" => Ret invert
  | _ => Raise KeyError
  end.

(** Images are stored at the capture resolution already; the
    morphological operations are not exercised. *)
Definition cv2_resize (i : image) (_ : Z * Z) (_ : interp) : outcome image := Ret i.
Definition cv2_flip (i : image) (_ : Z) : image := i.
Definition cv2_morph (m : fmask) (_ : pyval) : outcome fmask := Ret m.

Definition load_images := load_images cv2_resize 1 1.
Definition mainloop := mainloop get_filter cv2_resize cv2_flip cv2_morph cv2_morph cv2_morph 1 1.
Definition run := run get_filter cv2_resize cv2_flip cv2_morph cv2_morph cv2_morph 1 1.

(** A world with no [config.yaml], no image files, a grey camera frame,
    a subject filling the frame, and a halo that leaves the frame as it
    is. *)
Definition bare : world :=
  {| config_stat := None;
     config_file := ReadRaises OSError;
     fs_stat := fun _ => None;
     fs_glob := fun _ => [];
     cv2_imread := fun _ => None;
     cap_read := (true, px1 10 20 30);
     segmentation := fun _ _ => NdArray 1 1 [1];
     time_306 := 1000;
     time_308 := 1000;
     time_351 := 1000;
     time_353 := 1000;
     halo_block := fun _ frame => Ret frame |}.

(** [bare] with another [config.yaml] and other image files. *)
Definition world_with (cs : option float) (cf : config_read)
    (st : string -> option (float * bool)) (gl : string -> list string)
    (rd : string -> option image) : world :=
  {| config_stat := cs;
     config_file := cf;
     fs_stat := st;
     fs_glob := gl;
     cv2_imread := rd;
     cap_read := cap_read bare;
     segmentation := segmentation bare;
     time_306 := time_306 bare;
     time_308 := time_308 bare;
     time_351 := time_351 bare;
     time_353 := time_353 bare;
     halo_block := halo_block bare |}.

(** [config.yaml] exists with mtime 5 and does not parse. *)
Definition malformed : world :=
  world_with (Some 5%float) (ReadRaises YAMLError)
    (fs_stat bare) (fs_glob bare) (cv2_imread bare).

(** [config.yaml] exists with mtime 5 and cannot be opened. *)
Definition unreadable : world :=
  world_with (Some 5%float) (ReadRaises OSError)
    (fs_stat bare) (fs_glob bare) (cv2_imread bare).

(** An overlay directory whose mtime 5 is the cached one, and which
    holds no file with a dot in its name. *)
Definition emptied_directory : world :=
  world_with None (ReadRaises OSError)
    (fun path => if String.eqb path "overlays_dir" then Some (5%float, true) else None)
    (fun _ => []) (fun _ => None).
Definition emptied_directory_config : dict :=
  <["overlays_mtime" := PFloat 5]> (<["overlays_idx" := PInt 1]> default_config).
Definition emptied_directory_cached : option (list image) :=
  Some [px1a 1 2 3 255; px1a 4 5 6 255].

(** A resize that records the interpolation it was asked for in the
    first channel: 0 for nearest, 1 for linear. *)
Definition marking_resize (i : image) (_ : Z * Z) (m : interp) : outcome image :=
  Ret (Image 1 1 3 [[match m with INTER_NEAREST => 0 | INTER_LINEAR => 1 end; 0; 0]]).

(** A background file and an overlay file, both new to the cache, and a
    [config.yaml] that asks for the filter "invert" on both. *)
Definition filtered_yaml : dict :=
  list_to_map
    [("dilate", PInt 0);
     ("overlay_image", PStr "overlay.png");
     ("background_filters", PList [PStr "invert"]);
     ("overlay_filters", PList [PStr "invert"])].
Definition filtered : world :=
  world_with (Some 1%float) (ReadMapping filtered_yaml)
    (fun path => if String.eqb path "background.jpg" then Some (2%float, false)
                 else if String.eqb path "overlay.png" then Some (3%float, false)
                 else None)
    (fun _ => [])
    (fun path => if String.eqb path "background.jpg" then Some (px1 1 2 3)
                 else if String.eqb path "overlay.png" then Some (px1a 10 20 30 255)
                 else None).

(** A background animation of two frames, filtered; then the same
    set-up once the directory has been removed. *)
Definition animated_yaml : dict :=
  list_to_map
    [("dilate", PInt 0);
     ("background_image", PStr "bgdir");
     ("background_filters", PList [PStr "invert"])].
Definition animated : world :=
  world_with (Some 1%float) (ReadMapping animated_yaml)
    (fun path => if String.eqb path "bgdir" then Some (2%float, true) else None)
    (fun pattern => if String.eqb pattern "bgdir/*.*"
                    then ["bgdir/a.png"; "bgdir/b.png"] else [])
    (fun path => if String.eqb path "bgdir/a.png" then Some (px1 1 2 3)
                 else if String.eqb path "bgdir/b.png" then Some (px1 4 5 6)
                 else None).
Definition animated_gone : world :=
  world_with (Some 1%float) (ReadMapping animated_yaml)
    (fun _ => None) (fun _ => []) (fun _ => None).

(** An overlay animation of two frames; then the directory holds one
    frame and has a new mtime. *)
Definition overlaid_yaml : dict :=
  list_to_map [("dilate", PInt 0); ("overlay_image", PStr "ovdir")].
Definition overlaid : world :=
  world_with (Some 1%float) (ReadMapping overlaid_yaml)
    (fun path => if String.eqb path "background.jpg" then Some (2%float, false)
                 else if String.eqb path "ovdir" then Some (3%float, true)
                 else None)
    (fun pattern => if String.eqb pattern "ovdir/*.*"
                    then ["ovdir/a.png"; "ovdir/b.png"] else [])
    (fun path => if String.eqb path "background.jpg" then Some (px1 1 2 3)
                 else if String.eqb path "ovdir/a.png" then Some (px1a 10 20 30 255)
                 else if String.eqb path "ovdir/b.png" then Some (px1a 40 50 60 255)
                 else None).
Definition overlaid_shrunk : world :=
  world_with (Some 1%float) (ReadMapping overlaid_yaml)
    (fun path => if String.eqb path "background.jpg" then Some (2%float, false)
                 else if String.eqb path "ovdir" then Some (4%float, true)
                 else None)
    (fun pattern => if String.eqb pattern "ovdir/*.*" then ["ovdir/a.png"] else [])
    (fun path => if String.eqb path "background.jpg" then Some (px1 1 2 3)
                 else if String.eqb path "ovdir/a.png" then Some (px1a 10 20 30 255)
                 else None).

(** A configuration with the three post-processing parameters at 0. *)
Definition plain_config : dict :=
  <["dilate" := PInt 0]> default_config.

(** 257 one-pixel masks, the pixel set in 253 of them. *)
Definition long_history : list imask :=
  replicate 253 (NdArray 1 1 [1]) ++ replicate 4 (NdArray 1 1 [0]).

(** A three-frame background at two frames per second, last advanced at
    1700000000.0. *)
Definition timer_config : dict :=
  <["last_frame_bg" := PFloat 1700000000]>
    (<["background_fps" := PInt 2]>
       (<["replacement_bgs_idx" := PInt 0]> default_config)).

End Fixture.

(** ** Reference notions for the properties below *)

(** The float64 mean of pixel [i] over a list of masks: their values
    are added in list order and the sum is divided by their number. *)
Definition arithmetic_mean_at (window : list imask) (i : nat) : float :=
  match window with
  | [] => PrimFloat.nan
  | m :: ms =>
      PrimFloat.div
        (fold_left (fun acc x => PrimFloat.add acc (Z_to_float (nth i (nd_data x) 0)))
           ms (Z_to_float (nth i (nd_data m) 0)))
        (Z_to_float (Z.of_nat (length window)))
  end.

(** The data of an array fill its shape. *)
Definition nd_wf {A} (a : ndarray A) : Prop :=
  length (nd_data a) = (nd_h a * nd_w a)%nat.

(** Successive frames through the mask averaging, from the first on. *)
Fixpoint push_all (ms : list imask) : St store (list fmask) :=
  match ms with
  | [] => ret []
  | m :: rest =>
      (smoothed <- average_masks m ;;
       others <- push_all rest ;;
       ret (smoothed :: others))%py
  end.

(** A well-formed RGB pixel. *)
Definition rgb_pixel (px : list Z) : Prop :=
  length px = 3%nat /\ Forall is_uint8 px.

(** The mask whose every pixel is [a]. *)
Definition uniform_mask (h w : nat) (a : float) : fmask :=
  NdArray h w (replicate (h * w) a).

(** The value a pixel takes when [k] of [n] averaged masks are 1 there. *)
Definition binary_average (k n : nat) : float :=
  PrimFloat.div (Z_to_float (Z.of_nat k)) (Z_to_float (Z.of_nat n)).

(** A pixel value arising from at most 256 averaged 0/1 masks. *)
Definition is_binary_average (x : float) : Prop :=
  exists k n : nat, (k <= n)%nat /\ (1 <= n <= 256)%nat /\ x = binary_average k n.

(** [(x * 255) / 255], what lines 282 and 289 do to a pixel. *)
Definition scale_round_trip (x : float) : float :=
  PrimFloat.div (PrimFloat.mul x 255) 255.

(** ** Further notions, for the properties of the second part *)

(** The files [load_images] decodes for a source: the [*.*] children of
    a directory, or the file itself (lines 76-78). *)
Definition source_files (w : world) (image_name : string) (is_dir : bool)
    : list string :=
  if is_dir then fs_glob w (image_name +:+ "/*.*") else [image_name].

(** A filter that cannot fail, as a callable. *)
Definition total_filter (g : image -> image) : callable := fun x => Ret (g x).

(** An entry of a filter list of the form [[name, ...]]. *)
Definition is_list_spec (v : pyval) : Prop := exists l, v = PList l.

(** Lines 211-214: the frame after the configured flips. *)
Definition flipped (cv2_flip : image -> Z -> image) (config : dict) (frame : image)
    : image :=
  let frame := if py_truthy (dict_get config "flip_horizontal" PNone)
               then cv2_flip frame 1 else frame in
  if py_truthy (dict_get config "flip_vertical" PNone)
  then cv2_flip frame 0 else frame.

(** A well-formed RGBA pixel whose alpha is [al]. *)
Definition rgba_pixel (al : Z) (px : list Z) : Prop :=
  length px = 4%nat /\ Forall is_uint8 px /\ nth 3 px 0 = al.

(** The alpha channel of the overlay is [al] at every pixel. *)
Definition uniform_alpha (al : Z) (overlay : image) : Prop :=
  Forall (fun px => nth 3 px 0 = al) (img_px overlay).





Module Sample.

(** A background file that stats and does not decode. *)
Definition undecodable : world :=
  Fixture.world_with None (ReadRaises OSError)
    (fun path => if String.eqb path "background.jpg" then Some (2%float, false) else None)
    (fun _ => []) (fun _ => None).

(** A camera that delivers no frame. *)
Definition no_camera : world :=
  {| config_stat := None;
     config_file := ReadRaises OSError;
     fs_stat := fun _ => None;
     fs_glob := fun _ => [];
     cv2_imread := fun _ => None;
     cap_read := (false, Image 0 0 0 []);
     segmentation := segmentation Fixture.bare;
     time_306 := 1000; time_308 := 1000; time_351 := 1000; time_353 := 1000;
     halo_block := halo_block Fixture.bare |}.

(** A filter that cannot open the file it needs. *)
Definition failing_filter : callable := fun _ => Raise OSError.

(** A filter called with the wrong number of arguments. *)
Definition misused_filter : callable := fun _ => Raise TypeError.

(** A filter that fails on its own account. *)
Definition broken_filter : callable := fun _ => Raise ValueError.

(** Inverting every channel, as a function. *)
Definition inverted (frame : image) : image :=
  Image (img_h frame) (img_w frame) (img_c frame)
    (map (map (fun v => 255 - v)) (img_px frame)).

End Sample.

(** * Properties *)

(** ** Monad bookkeeping *)

Lemma bind_ret_l {S A B} (a : A) (k : A -> St S B) (s : S) :
  bind (ret a) k s = k a s.
Proof. reflexivity. Qed.

Lemma bind_run {S A B} (m : St S A) (k : A -> St S B) (s s' : S) (a : A) :
  m s = (Ret a, s') -> bind m k s = k a s'.
Proof. intros H. unfold bind. now rewrite H. Qed.

Lemma bind_raise {S A B} (m : St S A) (k : A -> St S B) (s s' : S) (e : exn) :
  m s = (Raise e, s') -> bind m k s = (Raise e, s').
Proof. intros H. unfold bind. now rewrite H. Qed.

Lemma on_config_run {A} (m : St dict A) (s : store) r c :
  m (config s) = (r, c) ->
  on_config m s = (r, Store c (masks s) (replacement_bgs s) (overlays s)).
Proof. intros H. unfold on_config. now rewrite H. Qed.

(** ** load_config *)

(** When [os.stat] raises, nothing is touched. *)
Lemma load_config_stat_fails (w : world) (old : dict) :
  config_stat w = None -> load_config w old = (Ret tt, old).
Proof.
  intros H. unfold load_config, try_except. rewrite H. reflexivity.
Qed.

(** When the file stats with the cached mtime, it is not read. *)
Lemma load_config_unchanged_mtime (w : world) (old : dict) (m : float) :
  config_stat w = Some m ->
  float_eq_py m (dict_get old "mtime" PNone) = true ->
  load_config w old = (Ret tt, old).
Proof.
  intros H Heq. unfold load_config, try_except, bind, get. rewrite H.
  cbn. rewrite Heq. reflexivity.
Qed.

(** When the file has a new mtime, the mtime is stored before the file is
    opened; whatever [open] or [yaml.load] raises finds it stored. *)
Lemma load_config_read_raises (w : world) (old : dict) (m : float) (e : exn) :
  config_stat w = Some m ->
  float_eq_py m (dict_get old "mtime" PNone) = false ->
  config_file w = ReadRaises e ->
  load_config w old =
    (if decide (e = OSError) then Ret tt else Raise e, <["mtime" := PFloat m]> old).
Proof.
  intros H Hne Hf. unfold load_config, try_except, bind, get, put, raise.
  rewrite H. cbn. rewrite Hne. cbn. rewrite Hf.
  destruct (decide (e = OSError)); reflexivity.
Qed.

(** C6, as stated, fails: a [config.yaml] that does not parse makes
    [load_config] raise [YAMLError] instead of returning the previous
    configuration, and the new mtime has already been stored in it. *)
Lemma load_config_malformed_not_recovered :
  fst (load_config Fixture.malformed default_config) = Raise YAMLError /\
  default_config !! "mtime" = None /\
  snd (load_config Fixture.malformed default_config) !! "mtime"
    = Some (PFloat 5).
Proof. vm_compute. repeat split. Qed.

(** C6, amended: when stat-ing or opening [config.yaml] raises OSError,
    [load_config] absorbs the exception and returns the previous
    configuration; every entry but ["mtime"] is what it was, and when it
    is [os.stat] that failed the configuration is unchanged altogether. *)
Theorem load_config_oserror_recovered (w : world) (old : dict)
    (H : config_stat w = None \/ config_file w = ReadRaises OSError) :
  exists c' : dict,
    load_config w old = (Ret tt, c') /\
    (forall key : string, key <> "mtime" -> c' !! key = old !! key) /\
    (config_stat w = None -> c' = old).
Proof.
  destruct (config_stat w) as [m|] eqn:Hs.
  - destruct H as [H|H]; [discriminate|].
    destruct (float_eq_py m (dict_get old "mtime" PNone)) eqn:Heq.
    + exists old. split; [|split]; auto.
      now apply load_config_unchanged_mtime with m.
    + exists (<["mtime" := PFloat m]> old). split; [|split].
      * rewrite (load_config_read_raises w old m OSError Hs Heq H). reflexivity.
      * intros key Hk. apply lookup_insert_ne. congruence.
      * discriminate.
  - exists old. split; [|split]; auto. now apply load_config_stat_fails.
Qed.

Lemma load_config_oserror_recovered_witness :
  exists c' : dict,
    load_config Fixture.unreadable default_config = (Ret tt, c') /\
    (forall key : string, key <> "mtime" -> c' !! key = default_config !! key) /\
    (config_stat Fixture.unreadable = None -> c' = default_config).
Proof.
  apply (load_config_oserror_recovered Fixture.unreadable default_config).
  right. reflexivity.
Defined.

(** The open failure does leave a trace: the stored mtime. *)
Example load_config_unreadable_stores_mtime :
  snd (load_config Fixture.unreadable default_config) !! "mtime"
    = Some (PFloat 5).
Proof. vm_compute. reflexivity. Qed.

(** ** load_images *)

Section LoadImages.

Variable cv2_resize : image -> Z * Z -> interp -> outcome image.
Variable width height : Z.
Variable w : world.

(** An OSError from [os.stat] is absorbed: the result is [None] and
    the configuration is not touched. *)
Lemma load_images_stat_fails images image_name imageset_name im fs (config : dict) :
  fs_stat w image_name = None ->
  load_images cv2_resize width height w images image_name imageset_name im fs config
    = (Ret None, config).
Proof.
  intros H. unfold load_images, try_except.
  rewrite H. reflexivity.
Qed.

(** With the cached mtime the argument [images] comes back. *)
Lemma load_images_cached images image_name imageset_name im fs (config : dict) m d :
  fs_stat w image_name = Some (m, d) ->
  float_eq_py m (dict_get config (imageset_name +:+ "_mtime") PNone) = true ->
  load_images cv2_resize width height w images image_name imageset_name im fs config
    = (Ret images, config).
Proof.
  intros H Heq. unfold load_images, try_except, bind, get.
  rewrite H. cbn. rewrite Heq. reflexivity.
Qed.

(** X8: a file that [cv2.imread] cannot decode makes [cv2.resize] raise;
    this is no OSError and leaves [load_images], the index already
    reset. *)
Lemma load_images_decode_fails images image_name imageset_name im fs (config : dict) m :
  fs_stat w image_name = Some (m, false) ->
  float_eq_py m (dict_get config (imageset_name +:+ "_mtime") PNone) = false ->
  cv2_imread w image_name = None ->
  load_images cv2_resize width height w images image_name imageset_name im fs config
    = (Raise CvError, <[imageset_name +:+ "_idx" := PInt 0]> config).
Proof.
  intros H Hne Hrd.
  unfold load_images, try_except, bind, get, put.
  rewrite H. cbn. rewrite Hne. cbn.
  unfold reload_images, bind, lift. cbn. unfold decode_one. rewrite Hrd.
  cbn. reflexivity.
Qed.

(** C10, amended: for a directory whose mtime differs from the cached
    one and in which [glob] finds no [*.*] file, [load_images] returns
    [None] after it has set the playback index of the set to 0 (the
    cached mtime stays as it was). *)
Theorem load_images_empty_directory images image_name imageset_name im fs
    (config : dict) m
    (Hstat : fs_stat w image_name = Some (m, true))
    (Hglob : fs_glob w (image_name +:+ "/*.*") = [])
    (Hnew : float_eq_py m (dict_get config (imageset_name +:+ "_mtime") PNone) = false) :
  load_images cv2_resize width height w images image_name imageset_name im fs config
    = (Ret None, <[imageset_name +:+ "_idx" := PInt 0]> config).
Proof.
  unfold load_images, try_except, bind, get, put.
  rewrite Hstat. cbn. rewrite Hnew. cbn. rewrite Hglob. reflexivity.
Qed.

End LoadImages.

(** C10, as stated, fails when the directory's mtime is the cached one:
    the emptied directory stats, [glob] finds nothing, and [load_images]
    hands back the cached images; the playback index is not reset. *)
Lemma load_images_empty_directory_cached_mtime :
  fs_stat Fixture.emptied_directory "overlays_dir" = Some (5%float, true) /\
  fs_glob Fixture.emptied_directory "overlays_dir/*.*" = [] /\
  fst (Fixture.load_images Fixture.emptied_directory Fixture.emptied_directory_cached
         "overlays_dir" "overlays" (ObjVal PNone) []
         Fixture.emptied_directory_config)
    = Ret (Some [Fixture.px1a 1 2 3 255; Fixture.px1a 4 5 6 255]) /\
  snd (Fixture.load_images Fixture.emptied_directory Fixture.emptied_directory_cached
         "overlays_dir" "overlays" (ObjVal PNone) []
         Fixture.emptied_directory_config) !! "overlays_idx"
    = Some (PInt 1).
Proof. vm_compute. repeat split. Qed.

Lemma load_images_empty_directory_witness :
  Fixture.load_images Fixture.emptied_directory Fixture.emptied_directory_cached
    "overlays_dir" "overlays" (ObjVal PNone) [] default_config
  = (Ret None, <["overlays" +:+ "_idx" := PInt 0]> default_config).
Proof.
  apply (load_images_empty_directory Fixture.cv2_resize 1 1 Fixture.emptied_directory
           Fixture.emptied_directory_cached "overlays_dir" "overlays" (ObjVal PNone) []
           default_config 5%float); reflexivity.
Defined.

(** ** The interpolation method *)

(** C7 on the code: whatever the caller passes as
    [interpolation_method], also "NEAREST", every frame is resized with
    [cv2.INTER_LINEAR]: line 85 overwrites the parameter before line 86
    tests it. *)
Theorem decode_one_nearest_resizes_linear
    (cv2_resize : image -> Z * Z -> interp -> outcome image) (width height : Z)
    (w : world) (filename : string) :
  decode_one cv2_resize width height w (ObjVal (PStr "NEAREST")) filename =
    match cv2_imread w filename with
    | None => Raise CvError
    | Some raw =>
        obind (cv2_resize raw (width, height) INTER_LINEAR) (fun image =>
        obind (swap_red_blue image) (fun image =>
        Ret (image, ObjInterp INTER_LINEAR)))
    end.
Proof. unfold decode_one. cbn. destruct (cv2_imread w filename); reflexivity. Qed.

(** The parameter has no influence on the decoded frames. *)
Lemma decode_all_any_method cv2_resize width height (w : world) (im im' : pyobj)
    (filenames : list string) :
  decode_all cv2_resize width height w im filenames
  = decode_all cv2_resize width height w im' filenames.
Proof.
  revert im im'. induction filenames as [|f fs IH]; intros im im'; [reflexivity|].
  cbn [decode_all]. unfold decode_one. cbn.
  destruct (cv2_imread w f) as [raw|]; [|reflexivity].
  destruct (cv2_resize raw (width, height) INTER_LINEAR) as [i|e]; [|reflexivity].
  cbn. destruct (swap_red_blue i) as [i'|e]; reflexivity.
Qed.

Lemma load_images_any_method cv2_resize width height (w : world) images image_name
    imageset_name (im im' : pyobj) fs (config : dict) :
  load_images cv2_resize width height w images image_name imageset_name im fs config
  = load_images cv2_resize width height w images image_name imageset_name im' fs config.
Proof.
  unfold load_images, reload_images.
  rewrite (decode_all_any_method _ _ _ w im im' [image_name]).
  rewrite (decode_all_any_method _ _ _ w im im' (fs_glob w (image_name +:+ "/*.*"))).
  reflexivity.
Qed.

(** With a resize that records its interpolation, a background asked
    for with "NEAREST" comes back marked linear. *)
Example load_images_nearest_marked_linear :
  fst (load_images Fixture.marking_resize 1 1 Fixture.filtered None "background.jpg"
         "replacement_bgs" (ObjVal (PStr "NEAREST")) [] default_config)
  = Ret (Some [Image 1 1 3 [[0; 0; 1]]]).
Proof. vm_compute. reflexivity. Qed.

(** ** Refreshing the background and the overlays *)

Section Refresh.

Variable get_filter : pyval -> outcome filterfn.
Variable cv2_resize : image -> Z * Z -> interp -> outcome image.
Variable width height : Z.
Variable w : world.

(** C5, amended: an OSError from [os.stat] on the source is absorbed at
    the image cache: [load_images] returns [None] and leaves the
    configuration as it is; the caller stores that [None], so its
    FrameSet is absent afterwards, whatever it held before. *)
Theorem refresh_background_stat_fails (image_name : string) (im : pyval)
    (image_filters : list callable) (s : store)
    (Hstat : fs_stat w image_name = None) :
  refresh_background cv2_resize width height w image_name im image_filters s
    = (Ret None, Store (config s) (masks s) None (overlays s)).
Proof.
  unfold refresh_background, bind, get, on_config, set_replacement_bgs, ret.
  rewrite (load_images_stat_fails cv2_resize width height w _ _ _ _ _ _ Hstat).
  reflexivity.
Qed.

(** X10: the overlays do not depend on the filter chain handed over. *)
Lemma refresh_overlays_any_filters (overlay_image : string)
    (overlay_filters overlay_filters' : list callable) (s : store) :
  refresh_overlays cv2_resize width height w overlay_image overlay_filters s
  = refresh_overlays cv2_resize width height w overlay_image overlay_filters' s.
Proof.
  unfold refresh_overlays, bind, get, on_config.
  rewrite (load_images_any_method cv2_resize width height w (overlays s) overlay_image
             "overlays" (ObjCallables overlay_filters) (ObjCallables overlay_filters')).
  reflexivity.
Qed.

End Refresh.

Lemma refresh_background_stat_fails_witness :
  refresh_background Fixture.cv2_resize 1 1 Fixture.bare "background.jpg" PNone []
    (Store default_config [] (Some [Fixture.px1 1 2 3]) None)
  = (Ret None, Store default_config [] None None).
Proof.
  apply (refresh_background_stat_fails Fixture.cv2_resize 1 1 Fixture.bare
           "background.jpg" PNone []
           (Store default_config [] (Some [Fixture.px1 1 2 3]) None)).
  reflexivity.
Defined.

(** C5, as stated, fails: the background cannot be stat'ed, the
    iteration completes, and the FrameSet the caller held is gone. *)
Lemma mainloop_stat_failure_drops_frameset :
  let s := Store default_config [] (Some [Fixture.px1 1 2 3]) None in
  fs_stat Fixture.bare "background.jpg" = None /\
  fst (Fixture.mainloop Fixture.bare s) = Ret (Image 1 1 3 [[30; 20; 10]]) /\
  replacement_bgs (snd (Fixture.mainloop Fixture.bare s)) = None.
Proof. vm_compute. repeat split. Qed.

(** C8 on the code: "invert" is configured for the background and for
    the overlay.  The background frame (stored as 1 2 3, red and blue
    swapped on loading) is inverted; the overlay frame (10 20 30 255)
    has its channels swapped and is not inverted. *)
Theorem overlay_filters_not_applied :
  let r := Fixture.run [Fixture.filtered] (snd (startup Fixture.filtered)) in
  dict_get (config (snd r)) "overlay_filters" PNone = PList [PStr "invert"] /\
  fst r = Ret [Image 1 1 3 [[30; 20; 10]]] /\
  replacement_bgs (snd r) = Some [Image 1 1 3 [[252; 253; 254]]] /\
  overlays (snd r) = Some [Image 1 1 4 [[30; 20; 10; 255]]].
Proof. vm_compute. repeat split. Qed.

(** C9 on the code: after one iteration over a two-frame background the
    index is 1; the directory disappears, the fallback at lines 230-238
    installs a one-frame FrameSet without touching the index, and line
    304 indexes it with 1. *)
Theorem background_index_out_of_range :
  let r := Fixture.run [Fixture.animated; Fixture.animated_gone]
             (snd (startup Fixture.animated)) in
  fst r = Raise IndexError /\
  replacement_bgs (snd r) = Some [Image 1 1 3 [[225; 235; 245]]] /\
  config (snd r) !! "replacement_bgs_idx" = Some (PInt 1).
Proof. vm_compute. repeat split. Qed.

(** The overlay index is read at line 319, before line 320 reloads the
    overlays and resets the stored index: with a directory that went
    from two frames to one, line 345 indexes the new list with 1. *)
Example overlay_index_out_of_range :
  let r := Fixture.run [Fixture.overlaid; Fixture.overlaid_shrunk]
             (snd (startup Fixture.overlaid)) in
  fst r = Raise IndexError /\
  overlays (snd r) = Some [Image 1 1 4 [[30; 20; 10; 255]]] /\
  config (snd r) !! "overlays_idx" = Some (PInt 0).
Proof. vm_compute. repeat split. Qed.

(** ** The animation timers *)


(** The timer block on its own: for a FrameSet of [n] frames at index
    [z], the index becomes [(z + 1) mod n] when the elapsed time is
    strictly greater than [1/fps], and stays [z] otherwise. *)
Theorem advance_index_once (idx_key last_key fps_key : string) (z : Z) (n : nat)
    (t t' : float) (config : dict) (last interval : float)
    (Hn : n <> 0%nat)
    (Hlast : py_float_operand (dict_get config last_key (PInt 0)) = Ret last)
    (Hfps : py_one_over (dict_get config fps_key (PInt 1)) = Ret interval) :
  advance_index idx_key last_key fps_key (PInt z) n t t' config
    = (Ret tt,
       if PrimFloat.ltb interval (PrimFloat.sub t last)
       then <[last_key := PFloat t']>
              (<[idx_key := PInt ((z + 1) mod Z.of_nat n)]> config)
       else config)
  /\ 0 <= (z + 1) mod Z.of_nat n < Z.of_nat n.
Proof.
  split.
  - unfold advance_index, bind, get, lift, advance_due.
    rewrite Hlast. cbn. rewrite Hfps. cbn.
    destruct (PrimFloat.ltb interval (PrimFloat.sub t last)); [|reflexivity].
    unfold py_next_index. destruct n as [|n']; [congruence|]. reflexivity.
  - apply Z.mod_pos_bound. lia.
Qed.

Lemma advance_index_once_witness :
  advance_index "replacement_bgs_idx" "last_frame_bg" "background_fps" (PInt 2) 3
    1700000003 1700000003 Fixture.timer_config
    = (Ret tt,
       if PrimFloat.ltb 0.5 (PrimFloat.sub 1700000003 1700000000)
       then <["last_frame_bg" := PFloat 1700000003]>
              (<["replacement_bgs_idx" := PInt ((2 + 1) mod Z.of_nat 3)]>
                 Fixture.timer_config)
       else Fixture.timer_config)
  /\ 0 <= (2 + 1) mod Z.of_nat 3 < Z.of_nat 3.
Proof.
  apply (advance_index_once "replacement_bgs_idx" "last_frame_bg" "background_fps"
           2 3 1700000003 1700000003 Fixture.timer_config 1700000000 0.5).
  - lia.
  - reflexivity.
  - reflexivity.
Defined.

(** Three seconds late, the index still moves by one: from 2 to 0. *)
Example advance_index_late :
  snd (advance_index "replacement_bgs_idx" "last_frame_bg" "background_fps" (PInt 2) 3
         1700000003 1700000003 Fixture.timer_config) !! "replacement_bgs_idx"
  = Some (PInt 0).
Proof. vm_compute. reflexivity. Qed.

(** ** Post-processing of the mask *)

Section Refine.

Variable cv2_dilate cv2_erode cv2_blur : fmask -> pyval -> outcome fmask.

(** With the three parameters at 0 no stage runs: what is left is the
    scaling by 255 and back. *)
Lemma refine_skips_stages (config : dict) (mask : fmask) :
  config !! "dilate" = Some (PInt 0) ->
  config !! "erode" = Some (PInt 0) ->
  config !! "blur" = Some (PInt 0) ->
  refine cv2_dilate cv2_erode cv2_blur config mask
    = Ret (nd_map scale_round_trip mask).
Proof.
  intros Hd He Hb. unfold refine, dict_item. rewrite Hd, He, Hb. cbn.
  unfold nd_map. cbn. rewrite map_map. reflexivity.
Qed.

(** The round trip, evaluated on every [binary_average k n], [n <= 256]. *)
Lemma round_trip_checked :
  forallb (fun n =>
    forallb (fun k =>
      PrimFloat.Leibniz.eqb (scale_round_trip (binary_average k n)) (binary_average k n))
      (seq 0 (S n)))
    (seq 1 256) = true.
Proof. vm_compute. reflexivity. Qed.

(** The scaling is exact on every average of at most 256 binary masks. *)
Lemma scale_round_trip_binary_average (x : float) :
  is_binary_average x -> scale_round_trip x = x.
Proof.
  intros (k & n & Hk & Hn & ->).
  assert (Hin : In n (seq 1 256)) by (apply in_seq; lia).
  assert (Hik : In k (seq 0 (S n))) by (apply in_seq; lia).
  pose proof (proj1 (forallb_forall _ _) round_trip_checked n Hin) as H1.
  cbv beta in H1.
  pose proof (proj1 (forallb_forall _ _) H1 k Hik) as H2.
  cbv beta in H2.
  exact (proj1 (FloatAxioms.Leibniz.eqb_spec _ _) H2).
Qed.

(** C4, amended: with dilate, erode and blur at 0 every optional stage
    is skipped and the result is the mask scaled by 255 and back,
    pixel by pixel; this is the mask itself whenever its pixels are
    averages of at most 256 binary masks (0 and 1 among them). *)
Theorem refine_zero_parameters (config : dict) (mask : fmask)
    (Hd : config !! "dilate" = Some (PInt 0))
    (He : config !! "erode" = Some (PInt 0))
    (Hb : config !! "blur" = Some (PInt 0)) :
  refine cv2_dilate cv2_erode cv2_blur config mask
    = Ret (nd_map scale_round_trip mask)
  /\ (Forall is_binary_average (nd_data mask) ->
      refine cv2_dilate cv2_erode cv2_blur config mask = Ret mask).
Proof.
  split; [now apply refine_skips_stages|].
  intros Hall. rewrite refine_skips_stages by assumption.
  f_equal. destruct mask as [h w data]. unfold nd_map. cbn in *. f_equal.
  induction Hall as [|x data' Hx _ IH]; [reflexivity|].
  cbn [map]. rewrite IH. now rewrite (scale_round_trip_binary_average x Hx).
Qed.

End Refine.

Lemma refine_zero_parameters_witness :
  refine Fixture.cv2_morph Fixture.cv2_morph Fixture.cv2_morph Fixture.plain_config
    (NdArray 1 1 [1%float])
    = Ret (nd_map scale_round_trip (NdArray 1 1 [1%float]))
  /\ (Forall is_binary_average (nd_data (NdArray 1 1 [1%float])) ->
      refine Fixture.cv2_morph Fixture.cv2_morph Fixture.cv2_morph Fixture.plain_config
        (NdArray 1 1 [1%float])
      = Ret (NdArray 1 1 [1%float])).
Proof.
  apply (refine_zero_parameters Fixture.cv2_morph Fixture.cv2_morph Fixture.cv2_morph
           Fixture.plain_config (NdArray 1 1 [1%float])); reflexivity.
Defined.

(** C4, as stated, fails: a pixel that is set in 253 of 257 averaged
    masks has a value in [0,1], and with all three parameters at 0 the
    post-processing returns another value for it. *)
Lemma refine_zero_not_identity :
  let x := binary_average 253 257 in
  np_mean_axis0 Fixture.long_history = Ret (NdArray 1 1 [x]) /\
  PrimFloat.leb 0 x = true /\ PrimFloat.leb x 1 = true /\
  refine Fixture.cv2_morph Fixture.cv2_morph Fixture.cv2_morph Fixture.plain_config
    (NdArray 1 1 [x]) <> Ret (NdArray 1 1 [x]).
Proof.
  cbv zeta. split; [vm_compute; reflexivity|].
  split; [vm_compute; reflexivity|].
  split; [vm_compute; reflexivity|].
  intros H.
  assert (Hc : match refine Fixture.cv2_morph Fixture.cv2_morph Fixture.cv2_morph
                       Fixture.plain_config (NdArray 1 1 [binary_average 253 257]) with
               | Ret m => forallb (PrimFloat.eqb (binary_average 253 257)) (nd_data m)
               | Raise _ => false
               end = true).
  { rewrite H. vm_compute. reflexivity. }
  vm_compute in Hc. discriminate Hc.
Qed.

(** ** Averaging over the last masks *)

Section Averaging.

Variable K : Z.
Hypothesis K_pos : 1 <= K.

Lemma take_app_take {A} (xs ys : list A) (n k : nat) :
  (n <= k)%nat -> take n (xs ++ take k ys) = take n (xs ++ ys).
Proof.
  revert n. induction xs as [|x xs IH]; intros n Hn; cbn [app].
  - rewrite take_take. f_equal. lia.
  - destruct n as [|n]; [reflexivity|]. cbn [take]. f_equal. apply IH. lia.
Qed.

(** One push: the new mask goes to the front, the list is cut to [K]
    entries, and the mean of what is kept is the result. *)
Lemma average_masks_step (s : store) (m : imask) :
  config s !! "average_masks" = Some (PInt K) ->
  average_masks m s
    = (np_mean_axis0 (take (Z.to_nat K) (m :: masks s)),
       Store (config s) (take (Z.to_nat K) (m :: masks s))
         (replacement_bgs s) (overlays s)).
Proof.
  intros HK. unfold average_masks, bind, get, set_masks, lift, dict_get. cbn.
  rewrite HK. cbn [py_max_1].
  destruct (1 <? K) eqn:E; cbn [py_slice_to].
  - assert ((K <? 0) = false) as -> by lia. reflexivity.
  - assert (K = 1) as -> by lia. reflexivity.
Qed.

Lemma add_mask_length (acc : list float) (x : imask) :
  length (nd_data x) = length acc -> length (add_mask acc x) = length acc.
Proof.
  intros H. unfold add_mask. rewrite length_zip_with, length_map. lia.
Qed.

Lemma add_mask_nth (acc : list float) (x : imask) (i : nat) :
  length (nd_data x) = length acc -> (i < length acc)%nat ->
  nth i (add_mask acc x) 0%float
    = PrimFloat.add (nth i acc 0%float) (Z_to_float (nth i (nd_data x) 0)).
Proof.
  unfold add_mask. generalize (nd_data x) as d. clear x.
  revert i. induction acc as [|a acc IH]; intros i d Hlen Hi; cbn in Hi; [lia|].
  destruct d as [|z d]; [discriminate|]. destruct i as [|i]; [reflexivity|].
  cbn. apply IH; cbn in Hlen; lia.
Qed.

Lemma sum_masks_length (ms : list imask) (acc : list float) :
  Forall (fun x => length (nd_data x) = length acc) ms ->
  length (fold_left add_mask ms acc) = length acc.
Proof.
  revert acc. induction ms as [|x ms IH]; intros acc H; [reflexivity|].
  inversion H as [|? ? Hx Hms]; subst. cbn [fold_left].
  rewrite IH; [now apply add_mask_length|].
  rewrite add_mask_length by assumption. exact Hms.
Qed.

Lemma sum_masks_nth (ms : list imask) (acc : list float) (i : nat) :
  Forall (fun x => length (nd_data x) = length acc) ms ->
  (i < length acc)%nat ->
  nth i (fold_left add_mask ms acc) 0%float
    = fold_left (fun a x => PrimFloat.add a (Z_to_float (nth i (nd_data x) 0)))
        ms (nth i acc 0%float).
Proof.
  revert acc. induction ms as [|x ms IH]; intros acc H Hi; [reflexivity|].
  inversion H as [|? ? Hx Hms]; subst. cbn [fold_left].
  rewrite IH.
  - now rewrite add_mask_nth.
  - rewrite add_mask_length by assumption. exact Hms.
  - now rewrite add_mask_length.
Qed.

(** [np.mean] of masks of one shape: it returns, and each pixel is the
    arithmetic mean of that pixel over the masks. *)
Lemma np_mean_axis0_pixels (m : imask) (ms : list imask) :
  Forall (fun x => nd_shape x = nd_shape m) ms ->
  Forall nd_wf (m :: ms) ->
  exists mean : fmask,
    np_mean_axis0 (m :: ms) = Ret mean /\
    nd_h mean = nd_h m /\ nd_w mean = nd_w m /\
    length (nd_data mean) = length (nd_data m) /\
    forall i : nat, (i < length (nd_data m))%nat ->
      nth i (nd_data mean) 0%float = arithmetic_mean_at (m :: ms) i.
Proof.
  intros Hsh Hwf. inversion Hwf as [|? ? Hm Hms]; subst.
  assert (Hlen : Forall (fun x : imask =>
                           length (nd_data x) = length (map Z_to_float (nd_data m))) ms).
  { rewrite length_map. rewrite Forall_forall in *. intros x Hx.
    specialize (Hsh x Hx). specialize (Hms x Hx). unfold nd_wf, nd_shape in *.
    injection Hsh as Hh Hw. congruence. }
  assert (Hall : forallb (same_shape m) ms = true).
  { apply forallb_forall. intros x Hx. rewrite Forall_forall in Hsh.
    apply list_elem_of_In in Hx.
    specialize (Hsh x Hx). unfold nd_shape in Hsh. injection Hsh as Hh Hw.
    unfold same_shape. rewrite Hh, Hw, !Nat.eqb_refl. reflexivity. }
  eexists. split; [|split; [|split; [|split]]].
  - unfold np_mean_axis0. rewrite Hall. reflexivity.
  - reflexivity.
  - reflexivity.
  - cbn [nd_data]. rewrite length_map.
    change (length (fold_left add_mask ms (map Z_to_float (nd_data m)))
            = length (nd_data m)).
    rewrite sum_masks_length by exact Hlen. apply length_map.
  - intros i Hi. cbn [nd_data].
    change (nth i (map (fun t => PrimFloat.div t (Z_to_float (Z.of_nat (length (m :: ms)))))
                     (fold_left add_mask ms (map Z_to_float (nd_data m)))) 0%float
            = arithmetic_mean_at (m :: ms) i).
    assert (Hi' : (i < length (fold_left add_mask ms (map Z_to_float (nd_data m))))%nat).
    { rewrite sum_masks_length by exact Hlen. now rewrite length_map. }
    rewrite (nth_indep _ 0%float
               (PrimFloat.div 0 (Z_to_float (Z.of_nat (length (m :: ms))))))
      by now rewrite length_map.
    rewrite (map_nth (fun t => PrimFloat.div t (Z_to_float (Z.of_nat (length (m :: ms)))))).
    rewrite sum_masks_nth by (try exact Hlen; now rewrite length_map).
    unfold arithmetic_mean_at. f_equal. f_equal.
    rewrite (nth_indep _ 0%float (Z_to_float 0)) by now rewrite length_map.
    apply map_nth.
Qed.

(** The history after a run of pushes: the last [K] masks, newest first. *)
Lemma push_all_history (pushed : list imask) (s : store) (sh : nat * nat) :
  config s !! "average_masks" = Some (PInt K) ->
  (length (masks s) <= Z.to_nat K)%nat ->
  Forall (fun x => nd_shape x = sh) (pushed ++ masks s) ->
  exists earlier : list fmask,
    push_all pushed s
      = (Ret earlier,
         Store (config s) (take (Z.to_nat K) (rev pushed ++ masks s))
           (replacement_bgs s) (overlays s)).
Proof.
  revert s. induction pushed as [|x rest IH]; intros s HK Hlen Hsh.
  - exists []. cbn. rewrite take_ge by exact Hlen. destruct s; reflexivity.
  - cbn [push_all]. unfold bind at 1. rewrite (average_masks_step s x HK).
    assert (Hk : exists k, Z.to_nat K = S k) by (exists (Z.to_nat K - 1)%nat; lia).
    destruct Hk as [k Hk]. rewrite Hk. cbn [take].
    inversion Hsh as [|? ? Hx Hrest]; subst.
    assert (Hall : forallb (same_shape x) (take k (masks s)) = true).
    { apply forallb_forall. intros y Hy.
      rewrite Forall_app in Hrest. destruct Hrest as [_ Hm].
      apply Forall_take with (n := k) in Hm.
      rewrite Forall_forall in Hm. apply list_elem_of_In in Hy.
      specialize (Hm y Hy).
      unfold nd_shape in Hm. injection Hm as Hh Hw.
      unfold same_shape. rewrite Hh, Hw, !Nat.eqb_refl. reflexivity. }
    unfold np_mean_axis0 at 1. rewrite Hall.
    set (s1 := Store (config s) (x :: take k (masks s)) (replacement_bgs s) (overlays s)).
    destruct (IH s1) as [earlier He].
    + exact HK.
    + cbn. rewrite length_take. lia.
    + cbn [masks s1]. rewrite Forall_app in Hrest. destruct Hrest as [Hr Hm].
      apply Forall_app. split; [exact Hr|].
      constructor; [reflexivity|]. now apply Forall_take.
    + eexists. unfold bind. rewrite He. cbn [ret]. unfold ret. f_equal.
      cbn [config masks replacement_bgs overlays s1]. f_equal.
      rewrite Hk. cbn [rev]. rewrite <- app_assoc. cbn [app].
      change (x :: take k (masks s)) with (take (S k) (x :: masks s)).
      apply take_app_take. lia.
Qed.

(** C1: with [average_masks] set to [K >= 1], after the masks [pushed]
    and then [m] have gone through the averaging, starting from an empty
    history, the history is the last [min(N, K)] of the [N] masks, newest
    first, and the mask returned for [m] is their mean, pixel by pixel. *)
Theorem average_masks_rolling_mean (cfg : dict) (pushed : list imask) (m : imask)
    (bgs ovs : option (list image))
    (HK : cfg !! "average_masks" = Some (PInt K))
    (Hshape : Forall (fun x => nd_shape x = nd_shape m) pushed)
    (Hwf : Forall nd_wf (m :: pushed)) :
  let window := take (Z.to_nat K) (m :: rev pushed) in
  exists (earlier : list fmask) (s : store) (mean : fmask),
    push_all pushed (Store cfg [] bgs ovs) = (Ret earlier, s) /\
    average_masks m s = (Ret mean, Store cfg window bgs ovs) /\
    length window = Nat.min (S (length pushed)) (Z.to_nat K) /\
    nd_h mean = nd_h m /\ nd_w mean = nd_w m /\
    length (nd_data mean) = length (nd_data m) /\
    forall i : nat, (i < length (nd_data m))%nat ->
      nth i (nd_data mean) 0%float = arithmetic_mean_at window i.
Proof.
  intros window.
  destruct (push_all_history pushed (Store cfg [] bgs ovs) (nd_shape m))
    as [earlier He].
  - exact HK.
  - cbn. lia.
  - cbn [masks]. rewrite app_nil_r. exact Hshape.
  - cbn [config masks replacement_bgs overlays] in He. rewrite app_nil_r in He.
    set (s := Store cfg (take (Z.to_nat K) (rev pushed)) bgs ovs) in He.
    assert (Hk : exists k, Z.to_nat K = S k) by (exists (Z.to_nat K - 1)%nat; lia).
    destruct Hk as [k Hk].
    assert (Hwin : take (Z.to_nat K) (m :: masks s) = window).
    { unfold window. cbn [masks s].
      apply (take_app_take [m] (rev pushed) (Z.to_nat K) (Z.to_nat K)). lia. }
    assert (Hw : window = m :: take k (rev pushed)).
    { unfold window. rewrite Hk. reflexivity. }
    destruct (np_mean_axis0_pixels m (take k (rev pushed)))
      as (mean & Hmean & Hh & Hwd & Hl & Hpx).
    + apply Forall_take. apply Forall_forall. intros x Hx.
      rewrite Forall_forall in Hshape. apply Hshape.
      apply list_elem_of_In. apply list_elem_of_In in Hx. now apply in_rev.
    + inversion Hwf as [|? ? Hm Hp]; subst. constructor; [exact Hm|].
      apply Forall_take. apply Forall_forall. intros x Hx.
      rewrite Forall_forall in Hp. apply Hp.
      apply list_elem_of_In. apply list_elem_of_In in Hx. now apply in_rev.
    + exists earlier, s, mean. split; [exact He|]. split.
      * rewrite (average_masks_step s m HK). rewrite Hwin, Hw, Hmean. reflexivity.
      * split.
        { unfold window. rewrite length_take. cbn [length]. rewrite length_rev. lia. }
        rewrite Hw. auto.
Qed.

End Averaging.

Lemma average_masks_rolling_mean_witness :
  let window := take (Z.to_nat 2) (NdArray 1 1 [1] :: rev [NdArray 1 1 [0]; NdArray 1 1 [1]]) in
  exists (earlier : list fmask) (s : store) (mean : fmask),
    push_all [NdArray 1 1 [0]; NdArray 1 1 [1]]
      (Store (<["average_masks" := PInt 2]> default_config) [] None None)
      = (Ret earlier, s) /\
    average_masks (NdArray 1 1 [1]) s
      = (Ret mean, Store (<["average_masks" := PInt 2]> default_config) window None None) /\
    length window = Nat.min (S (length [NdArray 1 1 [0]; NdArray 1 1 [1]])) (Z.to_nat 2) /\
    nd_h mean = nd_h (NdArray 1 1 [1]) /\ nd_w mean = nd_w (NdArray 1 1 [1]) /\
    length (nd_data mean) = length (nd_data (NdArray 1 1 [1])) /\
    forall i : nat, (i < length (nd_data (NdArray 1 1 [1])))%nat ->
      nth i (nd_data mean) 0%float = arithmetic_mean_at window i.
Proof.
  apply (average_masks_rolling_mean 2 ltac:(lia)
           (<["average_masks" := PInt 2]> default_config)
           [NdArray 1 1 [0]; NdArray 1 1 [1]] (NdArray 1 1 [1]) None None).
  - reflexivity.
  - repeat constructor.
  - repeat constructor.
Defined.

(** Three pushes at capacity 2: the first mask has been evicted and the
    result is the mean of the last two. *)
Example average_masks_three_pushes :
  let s0 := Store (<["average_masks" := PInt 2]> default_config) [] None None in
  let r := push_all [NdArray 1 1 [0]; NdArray 1 1 [1]; NdArray 1 1 [1]] s0 in
  fst r = Ret [NdArray 1 1 [0%float]; NdArray 1 1 [0.5%float]; NdArray 1 1 [1%float]] /\
  masks (snd r) = [NdArray 1 1 [1]; NdArray 1 1 [1]].
Proof. vm_compute. repeat split. Qed.

(** ** Compositing at the boundaries of the mask *)

(** The two boundary blends, evaluated on every pair of uint8 values. *)
Lemma blend_boundary_checked :
  forallb (fun f =>
    forallb (fun b =>
      (cast_uint8 (PrimFloat.add (PrimFloat.mul (Z_to_float (Z.of_nat f)) 0)
                     (PrimFloat.mul (Z_to_float (Z.of_nat b)) (PrimFloat.sub 1 0)))
         =? Z.of_nat b)
      && (cast_uint8 (PrimFloat.add (PrimFloat.mul (Z_to_float (Z.of_nat f)) 1)
                        (PrimFloat.mul (Z_to_float (Z.of_nat b)) (PrimFloat.sub 1 1)))
            =? Z.of_nat f))
      (seq 0 256))
    (seq 0 256) = true.
Proof. vm_compute. reflexivity. Qed.

Lemma blend_boundary (f b : Z) :
  is_uint8 f -> is_uint8 b ->
  cast_uint8 (PrimFloat.add (PrimFloat.mul (Z_to_float f) 0)
                (PrimFloat.mul (Z_to_float b) (PrimFloat.sub 1 0))) = b /\
  cast_uint8 (PrimFloat.add (PrimFloat.mul (Z_to_float f) 1)
                (PrimFloat.mul (Z_to_float b) (PrimFloat.sub 1 1))) = f.
Proof.
  unfold is_uint8. intros Hf Hb.
  assert (Hif : In (Z.to_nat f) (seq 0 256)) by (apply in_seq; lia).
  assert (Hib : In (Z.to_nat b) (seq 0 256)) by (apply in_seq; lia).
  pose proof (proj1 (forallb_forall _ _) blend_boundary_checked _ Hif) as H1.
  cbv beta in H1.
  pose proof (proj1 (forallb_forall _ _) H1 _ Hib) as H2.
  cbv beta in H2.
  rewrite !Z2Nat.id in H2 by lia.
  apply andb_true_iff in H2. destruct H2 as [H2 H3].
  split; now apply Z.eqb_eq.
Qed.

Lemma rgb_pixel_inv (px : list Z) :
  rgb_pixel px ->
  exists r g b, px = [r; g; b] /\ is_uint8 r /\ is_uint8 g /\ is_uint8 b.
Proof.
  intros [Hl Hu]. destruct px as [|r [|g [|b [|? ?]]]]; try discriminate.
  inversion Hu as [|? ? Hr Hu1]; subst. inversion Hu1 as [|? ? Hg Hu2]; subst.
  inversion Hu2 as [|? ? Hb _]; subst. eauto 10.
Qed.

(** The three passes over one pixel, where the mask is 0 and where it is 1. *)
Lemma blend_pixel_three_passes (fpx opx : list Z) :
  rgb_pixel fpx -> rgb_pixel opx ->
  let pass (a : float) (c : nat) (px : list Z) :=
    blend_pixel c (px, a) (opx, PrimFloat.sub 1 a) in
  pass 0%float 2%nat (pass 0%float 1%nat (pass 0%float 0%nat fpx)) = opx /\
  pass 1%float 2%nat (pass 1%float 1%nat (pass 1%float 0%nat fpx)) = fpx.
Proof.
  intros Hf Ho.
  destruct (rgb_pixel_inv fpx Hf) as (f0 & f1 & f2 & -> & Hf0 & Hf1 & Hf2).
  destruct (rgb_pixel_inv opx Ho) as (o0 & o1 & o2 & -> & Ho0 & Ho1 & Ho2).
  destruct (blend_boundary f0 o0 Hf0 Ho0) as [Z0 U0].
  destruct (blend_boundary f1 o1 Hf1 Ho1) as [Z1 U1].
  destruct (blend_boundary f2 o2 Hf2 Ho2) as [Z2 U2].
  cbv zeta. unfold blend_pixel. cbn [fst snd nth].
  rewrite Z0, U0. cbn [list_insert insert nth]. rewrite Z1, U1.
  cbn [list_insert insert nth]. rewrite Z2, U2. split; reflexivity.
Qed.

(** The three passes over the pixels of a frame under a uniform mask. *)
Lemma blend_pixels_three_passes (F O : list (list Z)) (A : list float) (a : float) :
  (a = 0%float \/ a = 1%float) ->
  Forall rgb_pixel F -> Forall rgb_pixel O ->
  Forall (fun x => x = a) A ->
  length O = length F -> length A = length F ->
  let pass (c : nat) (px : list (list Z)) :=
    zip_with (blend_pixel c) (zip px A) (zip O (map (fun x => PrimFloat.sub 1 x) A)) in
  pass 2%nat (pass 1%nat (pass 0%nat F)) = if PrimFloat.eqb a 0 then O else F.
Proof.
  intros Ha HF. revert O A.
  induction HF as [|fpx F Hf HF IH]; intros O A HO HA HlO HlA; cbv zeta.
  - destruct O; [|discriminate]. destruct Ha as [-> | ->]; reflexivity.
  - destruct O as [|opx O]; [discriminate|]. destruct A as [|x A]; [discriminate|].
    inversion HO as [|? ? Ho HO']; subst. inversion HA as [|? ? Hx HA']; subst.
    cbn [zip zip_with map].
    specialize (IH O A HO' HA' ltac:(cbn in HlO; lia) ltac:(cbn in HlA; lia)).
    cbv zeta in IH.
    destruct (blend_pixel_three_passes fpx opx Hf Ho) as [P0 P1].
    cbv zeta in P0, P1.
    change (zip_with (blend_pixel 0) (zip F A) (zip O (map (fun x => PrimFloat.sub 1 x) A)))
      with (zip_with (blend_pixel 0) (zip F A) (zip O (map (fun x => PrimFloat.sub 1 x) A))).
    destruct Ha as [-> | ->].
    + change (PrimFloat.eqb 0 0) with true in *. cbv iota in *.
      rewrite IH. f_equal. exact P0.
    + change (PrimFloat.eqb 1 0) with false in *. cbv iota in *.
      rewrite IH. f_equal. exact P1.
Qed.

Lemma image_wf_rgb (i : image) :
  image_wf i -> img_c i = 3%nat -> Forall rgb_pixel (img_px i).
Proof.
  intros [_ H] Hc. rewrite Hc in H. exact H.
Qed.

Lemma blend_channel_runs (c : nat) (frame other : image) (w1 w2 : fmask) :
  (c < img_c frame)%nat -> (c < img_c other)%nat ->
  nd_h w1 = img_h frame -> nd_w w1 = img_w frame ->
  nd_h w2 = img_h frame -> nd_w w2 = img_w frame ->
  img_h other = img_h frame -> img_w other = img_w frame ->
  blend_channel c frame w1 (Ret other) w2
    = Ret (Image (img_h frame) (img_w frame) (img_c frame)
             (zip_with (blend_pixel c)
                (zip (img_px frame) (nd_data w1))
                (zip (img_px other) (nd_data w2)))).
Proof.
  intros Hc Hc' H1 H2 H3 H4 H5 H6. unfold blend_channel.
  assert ((img_c frame <=? c)%nat = false) as -> by (apply Nat.leb_gt; lia).
  rewrite H1, H2, !Nat.eqb_refl. cbn [negb andb obind].
  assert ((img_c other <=? c)%nat = false) as -> by (apply Nat.leb_gt; lia).
  rewrite H3, H4, H5, H6, !Nat.eqb_refl. reflexivity.
Qed.

Lemma composite_background_uniform (frame bg : image) (mask : fmask)
    (bgs : list image) (idx : pyval) (a : float) :
  (a = 0%float \/ a = 1%float) ->
  py_index bgs idx = Ret bg ->
  image_wf frame -> image_wf bg ->
  img_c frame = 3%nat -> img_c bg = 3%nat ->
  img_h bg = img_h frame -> img_w bg = img_w frame ->
  nd_wf mask -> nd_h mask = img_h frame -> nd_w mask = img_w frame ->
  Forall (fun x => x = a) (nd_data mask) ->
  composite_background frame mask (invert_mask mask) bgs idx
    = Ret (if PrimFloat.eqb a 0 then bg else frame).
Proof.
  intros Ha Hidx Hf Hb Hfc Hbc Hh Hw Hm Hmh Hmw Hall.
  pose proof (image_wf_rgb frame Hf Hfc) as HF.
  pose proof (image_wf_rgb bg Hb Hbc) as HO.
  destruct Hf as [HlF _]. destruct Hb as [HlO _]. unfold nd_wf in Hm.
  destruct frame as [fh fw fc F]. destruct bg as [bh bw bc O].
  destruct mask as [mh mw A]. cbn in *. subst.
  pose proof (blend_pixels_three_passes F O A a Ha HF HO Hall
                ltac:(lia) ltac:(lia)) as H3.
  cbv zeta in H3.
  unfold composite_background. cbn [fold_left obind]. rewrite Hidx.
  rewrite blend_channel_runs by (cbn; (reflexivity || lia)).
  cbn [obind img_h img_w img_c img_px invert_mask nd_map nd_data].
  rewrite blend_channel_runs by (cbn; (reflexivity || lia)).
  cbn [obind img_h img_w img_c img_px invert_mask nd_map nd_data].
  rewrite blend_channel_runs by (cbn; (reflexivity || lia)).
  cbn [obind img_h img_w img_c img_px invert_mask nd_map nd_data].
  rewrite H3. destruct Ha as [-> | ->].
  - change (PrimFloat.eqb 0 0) with true. reflexivity.
  - change (PrimFloat.eqb 1 0) with false. reflexivity.
Qed.

(** C2: for a frame and a background of the same height and width, both
    RGB, compositing with the mask that is 0 everywhere yields the
    background, and with the mask that is 1 everywhere yields the frame;
    the blend is [frame * mask + background * (1 - mask)] per channel. *)
Theorem composite_background_boundary (frame bg : image) (bgs : list image)
    (idx : pyval)
    (Hidx : py_index bgs idx = Ret bg)
    (Hf : image_wf frame) (Hb : image_wf bg)
    (Hfc : img_c frame = 3%nat) (Hbc : img_c bg = 3%nat)
    (Hh : img_h bg = img_h frame) (Hw : img_w bg = img_w frame) :
  let mask := uniform_mask (img_h frame) (img_w frame) in
  composite_background frame (mask 0%float) (invert_mask (mask 0%float)) bgs idx
    = Ret bg /\
  composite_background frame (mask 1%float) (invert_mask (mask 1%float)) bgs idx
    = Ret frame.
Proof.
  cbv zeta. split.
  - apply (composite_background_uniform frame bg _ bgs idx 0%float); auto;
      try reflexivity.
    + unfold nd_wf, uniform_mask. cbn. apply length_replicate.
    + apply Forall_replicate. reflexivity.
  - apply (composite_background_uniform frame bg _ bgs idx 1%float); auto;
      try reflexivity.
    + unfold nd_wf, uniform_mask. cbn. apply length_replicate.
    + apply Forall_replicate. reflexivity.
Qed.

Lemma composite_background_boundary_witness :
  let frame := Fixture.px1 10 20 30 in
  let bg := Fixture.px1 1 2 3 in
  let mask := uniform_mask (img_h frame) (img_w frame) in
  composite_background frame (mask 0%float) (invert_mask (mask 0%float)) [bg] (PInt 0)
    = Ret bg /\
  composite_background frame (mask 1%float) (invert_mask (mask 1%float)) [bg] (PInt 0)
    = Ret frame.
Proof.
  apply (composite_background_boundary (Fixture.px1 10 20 30) (Fixture.px1 1 2 3)
           [Fixture.px1 1 2 3] (PInt 0)); try reflexivity.
  - split; [reflexivity|]. repeat constructor; unfold is_uint8; lia.
  - split; [reflexivity|]. repeat constructor; unfold is_uint8; lia.
Defined.

(** * Further properties of the code *)

(** ** Reading the configuration *)

Lemma force_image_reload_lookup (config : dict) (key : string) :
  force_image_reload config !! key
  = match config !! key with
    | Some v => Some (if endswith key "_mtime" then PInt 0 else v)
    | None => None
    end.
Proof.
  unfold force_image_reload. rewrite map_lookup_imap.
  destruct (config !! key); reflexivity.
Qed.

(** The configuration after a file with a new mtime has been read. *)
Lemma load_config_merged (w : world) (old yconfig : dict) (m : float) :
  config_stat w = Some m ->
  float_eq_py m (dict_get old "mtime" PNone) = false ->
  config_file w = ReadMapping yconfig ->
  load_config w old
    = (Ret tt, force_image_reload (yconfig ∪ <["mtime" := PFloat m]> old)) /\
  forall key : string,
    force_image_reload (yconfig ∪ <["mtime" := PFloat m]> old) !! key =
      match yconfig !! key with
      | Some v => Some (if endswith key "_mtime" then PInt 0 else v)
      | None =>
          if String.eqb key "mtime" then Some (PFloat m)
          else match old !! key with
               | Some v => Some (if endswith key "_mtime" then PInt 0 else v)
               | None => None
               end
      end.
Proof.
  intros Hstat Hnew Hfile. split.
  - unfold load_config, try_except, bind, get, put. rewrite Hstat. cbn.
    rewrite Hnew. cbn. rewrite Hfile. reflexivity.
  - intros key. rewrite force_image_reload_lookup, lookup_union.
    destruct (yconfig !! key) as [v|] eqn:Hy.
    + destruct (<["mtime" := PFloat m]> old !! key); reflexivity.
    + destruct (String.eqb_spec key "mtime") as [->|Hk].
      * rewrite lookup_insert_eq. reflexivity.
      * rewrite lookup_insert_ne by congruence.
        destruct (old !! key); reflexivity.
Qed.

(** X1: when [config.yaml] has a new mtime and holds a mapping with
    string keys, every entry the file names has the file's value, every
    entry it does not name keeps its previous value, except ["mtime"],
    which then is the file's mtime; after that, every entry whose key
    ends in [_mtime] is 0. *)
Theorem load_config_merges (w : world) (old yconfig : dict) (m : float)
    (Hstat : config_stat w = Some m)
    (Hnew : float_eq_py m (dict_get old "mtime" PNone) = false)
    (Hfile : config_file w = ReadMapping yconfig) :
  exists c' : dict,
    load_config w old = (Ret tt, c') /\
    forall key : string,
      c' !! key =
        match yconfig !! key with
        | Some v => Some (if endswith key "_mtime" then PInt 0 else v)
        | None =>
            if String.eqb key "mtime" then Some (PFloat m)
            else match old !! key with
                 | Some v => Some (if endswith key "_mtime" then PInt 0 else v)
                 | None => None
                 end
        end.
Proof.
  destruct (load_config_merged w old yconfig m Hstat Hnew Hfile) as [H1 H2].
  eexists. split; [exact H1|exact H2].
Qed.

Lemma load_config_merges_witness :
  exists c' : dict,
    load_config Fixture.filtered default_config = (Ret tt, c') /\
    forall key : string,
      c' !! key =
        match Fixture.filtered_yaml !! key with
        | Some v => Some (if endswith key "_mtime" then PInt 0 else v)
        | None =>
            if String.eqb key "mtime" then Some (PFloat 1)
            else match default_config !! key with
                 | Some v => Some (if endswith key "_mtime" then PInt 0 else v)
                 | None => None
                 end
        end.
Proof.
  apply (load_config_merges Fixture.filtered default_config Fixture.filtered_yaml 1%float);
    reflexivity.
Defined.

(** X2: a [config.yaml] whose mtime is the stored one is not opened:
    the configuration comes back as it is, whatever the file holds. *)
Theorem load_config_skips_unchanged_file (w : world) (old : dict) (m : float)
    (Hstat : config_stat w = Some m)
    (Hsame : float_eq_py m (dict_get old "mtime" PNone) = true) :
  load_config w old = (Ret tt, old).
Proof.
  unfold load_config, try_except, bind, get. rewrite Hstat. cbn.
  rewrite Hsame. reflexivity.
Qed.

Lemma load_config_skips_unchanged_file_witness :
  load_config Fixture.malformed (<["mtime" := PFloat 5]> default_config)
  = (Ret tt, <["mtime" := PFloat 5]> default_config).
Proof.
  apply (load_config_skips_unchanged_file Fixture.malformed
           (<["mtime" := PFloat 5]> default_config) 5%float); reflexivity.
Defined.

(** X3: reading settles: once [load_config] has returned, a second call
    on the same file changes nothing (the file does not set ["mtime"]
    itself and its mtime is a number). *)
Theorem load_config_settles (w : world) (old yconfig c' : dict) (m : float)
    (Hstat : config_stat w = Some m)
    (Hm : PrimFloat.eqb m m = true)
    (Hfile : config_file w = ReadMapping yconfig)
    (Hkey : yconfig !! "mtime" = None)
    (Hload : load_config w old = (Ret tt, c')) :
  load_config w c' = (Ret tt, c').
Proof.
  destruct (float_eq_py m (dict_get old "mtime" PNone)) eqn:Hnew.
  - rewrite (load_config_unchanged_mtime w old m Hstat Hnew) in Hload.
    injection Hload as <-. now apply load_config_unchanged_mtime with m.
  - destruct (load_config_merged w old yconfig m Hstat Hnew Hfile) as [Hc Hl].
    rewrite Hc in Hload. injection Hload as <-.
    apply load_config_unchanged_mtime with m; [exact Hstat|].
    unfold dict_get. rewrite Hl, Hkey. cbn. exact Hm.
Qed.

Lemma load_config_settles_witness :
  load_config Fixture.filtered (snd (load_config Fixture.filtered default_config))
  = (Ret tt, snd (load_config Fixture.filtered default_config)).
Proof.
  apply (load_config_settles Fixture.filtered default_config Fixture.filtered_yaml
           (snd (load_config Fixture.filtered default_config)) 1%float);
    reflexivity.
Defined.

Lemma substring_whole (t : string) : substring 0 (String.length t) t = t.
Proof. induction t as [|c t IH]; simpl; [reflexivity|]. f_equal. exact IH. Qed.

Lemma substring_after (s t : string) :
  substring (String.length s) (String.length t) (s +:+ t) = t.
Proof. induction s as [|c s IH]; simpl; [apply substring_whole|exact IH]. Qed.

Lemma length_append (s t : string) :
  String.length (s +:+ t) = (String.length s + String.length t)%nat.
Proof. induction s as [|c s IH]; simpl; [reflexivity|]. f_equal. exact IH. Qed.

Lemma endswith_append (s t : string) : endswith (s +:+ t) t = true.
Proof.
  unfold endswith. rewrite length_append.
  replace (String.length s + String.length t - String.length t)%nat
    with (String.length s) by lia.
  rewrite substring_after, String.eqb_refl.
  rewrite andb_true_r. apply Nat.leb_le. lia.
Qed.

Lemma append_cancel_l (s a b : string) : s +:+ a = s +:+ b -> a = b.
Proof.
  induction s as [|c s IH]; simpl; intros H; [exact H|].
  injection H as H. now apply IH.
Qed.

(** X4: after [config.yaml] has been read again, no image set counts as
    loaded: for every set, a source whose mtime is not zero differs from
    the cached mtime, so that [load_images] decodes it again. *)
Theorem load_config_forces_image_reload (w : world) (old yconfig c' : dict)
    (m mt : float) (imageset_name : string)
    (Hstat : config_stat w = Some m)
    (Hnew : float_eq_py m (dict_get old "mtime" PNone) = false)
    (Hfile : config_file w = ReadMapping yconfig)
    (Hload : load_config w old = (Ret tt, c'))
    (Hmt : float_integral mt <> Some 0) :
  float_eq_py mt (dict_get c' (imageset_name +:+ "_mtime") PNone) = false.
Proof.
  destruct (load_config_merged w old yconfig m Hstat Hnew Hfile) as [Hc Hl].
  rewrite Hc in Hload. injection Hload as <-.
  unfold dict_get. rewrite Hl. clear Hl Hc.
  pose proof (endswith_append imageset_name "_mtime") as He.
  assert (Hk : String.eqb (imageset_name +:+ "_mtime") "mtime" = false).
  { destruct (String.eqb_spec (imageset_name +:+ "_mtime") "mtime") as [E|]; [|reflexivity].
    rewrite E in He. discriminate He. }
  rewrite He, Hk.
  assert (H0 : float_eq_py mt (PInt 0) = false).
  { unfold float_eq_py. destruct (float_integral mt) as [z|]; [|reflexivity].
    apply Z.eqb_neq. congruence. }
  destruct (yconfig !! (imageset_name +:+ "_mtime")); [exact H0|].
  destruct (old !! (imageset_name +:+ "_mtime")); [exact H0|reflexivity].
Qed.

Lemma load_config_forces_image_reload_witness :
  float_eq_py 2
    (dict_get (snd (load_config Fixture.filtered
                      (<["replacement_bgs_mtime" := PFloat 2]> default_config)))
       ("replacement_bgs" +:+ "_mtime") PNone) = false.
Proof.
  apply (load_config_forces_image_reload Fixture.filtered
           (<["replacement_bgs_mtime" := PFloat 2]> default_config)
           Fixture.filtered_yaml
           (snd (load_config Fixture.filtered
                   (<["replacement_bgs_mtime" := PFloat 2]> default_config)))
           1%float 2%float "replacement_bgs"); try reflexivity.
  vm_compute. discriminate.
Defined.

(** ** The image cache *)

Section MoreLoadImages.

Variable cv2_resize : image -> Z * Z -> interp -> outcome image.
Variable width height : Z.
Variable w : world.

Lemma decode_all_length (im : pyobj) (filenames : list string) (images : list image) :
  decode_all cv2_resize width height w im filenames = Ret images ->
  length images = length filenames.
Proof.
  revert im images. induction filenames as [|f fs IH]; intros im images H.
  - injection H as <-. reflexivity.
  - cbn [decode_all] in H.
    destruct (decode_one cv2_resize width height w im f) as [[i im']|e]; [|discriminate].
    cbn [obind] in H.
    destruct (decode_all cv2_resize width height w im' fs) as [rest|e] eqn:E;
      [|discriminate].
    cbn [obind] in H. injection H as <-. cbn. f_equal. now apply (IH im').
Qed.

Lemma filter_all_length (fs : list callable) (images images' : list image) :
  filter_all fs images = Ret images' -> length images' = length images.
Proof.
  revert images'. induction images as [|x rest IH]; intros images' H.
  - injection H as <-. reflexivity.
  - cbn [filter_all] in H. destruct (apply_filters fs x) as [x'|e]; [|discriminate].
    cbn [obind] in H. destruct (filter_all fs rest) as [rest'|e]; [|discriminate].
    cbn [obind] in H. injection H as <-. cbn. f_equal. now apply IH.
Qed.

(** The reload branch, once the files are decoded. *)
Lemma load_images_reload_runs images image_name imageset_name im fs (config : dict)
    m is_dir raw :
  fs_stat w image_name = Some (m, is_dir) ->
  float_eq_py m (dict_get config (imageset_name +:+ "_mtime") PNone) = false ->
  source_files w image_name is_dir <> [] ->
  decode_all cv2_resize width height w im (source_files w image_name is_dir) = Ret raw ->
  load_images cv2_resize width height w images image_name imageset_name im fs config
    = (match filter_all fs raw with
       | Ret loaded => Ret (Some loaded)
       | Raise OSError => Ret None
       | Raise e => Raise e
       end,
       <[imageset_name +:+ "_mtime" := PFloat m]>
         (<[imageset_name +:+ "_idx" := PInt 0]> config)).
Proof.
  intros Hstat Hnew Hne Hdec.
  unfold load_images, try_except, bind, get, put.
  rewrite Hstat. cbn. rewrite Hnew. cbn.
  unfold source_files in *. destruct is_dir.
  - destruct (fs_glob w (image_name +:+ "/*.*")) as [|f0 fl] eqn:Hg; [congruence|].
    unfold reload_images, bind, lift, get, put. rewrite Hdec.
    cbn. destruct (filter_all fs raw) as [l|e]; cbn; [reflexivity|].
    destruct e; reflexivity.
  - unfold reload_images, bind, lift, get, put. rewrite Hdec.
    cbn. destruct (filter_all fs raw) as [l|e]; cbn; [reflexivity|].
    destruct e; reflexivity.
Qed.

(** X5: with the cached mtime nothing is decoded: the caller gets back
    the very images it passed in (also [None]), and the configuration is
    not touched. *)
Theorem load_images_unchanged_mtime images image_name imageset_name im fs
    (config : dict) m is_dir
    (Hstat : fs_stat w image_name = Some (m, is_dir))
    (Hsame : float_eq_py m (dict_get config (imageset_name +:+ "_mtime") PNone) = true) :
  load_images cv2_resize width height w images image_name imageset_name im fs config
    = (Ret images, config).
Proof.
  unfold load_images, try_except, bind, get.
  rewrite Hstat. cbn. rewrite Hsame. reflexivity.
Qed.

(** X6: a successful reload yields one image per file, hence at least
    one; the playback index of the set is 0, the mtime of the source is
    cached, and no other entry of the configuration changes. *)
Theorem load_images_reloads images image_name imageset_name im fs (config : dict)
    m is_dir raw loaded
    (Hstat : fs_stat w image_name = Some (m, is_dir))
    (Hnew : float_eq_py m (dict_get config (imageset_name +:+ "_mtime") PNone) = false)
    (Hfiles : source_files w image_name is_dir <> [])
    (Hdec : decode_all cv2_resize width height w im (source_files w image_name is_dir)
            = Ret raw)
    (Hfil : filter_all fs raw = Ret loaded) :
  exists config' : dict,
    load_images cv2_resize width height w images image_name imageset_name im fs config
      = (Ret (Some loaded), config') /\
    length loaded = length (source_files w image_name is_dir) /\
    loaded <> [] /\
    config' !! (imageset_name +:+ "_idx") = Some (PInt 0) /\
    config' !! (imageset_name +:+ "_mtime") = Some (PFloat m) /\
    forall key : string,
      key <> imageset_name +:+ "_idx" -> key <> imageset_name +:+ "_mtime" ->
      config' !! key = config !! key.
Proof.
  exists (<[imageset_name +:+ "_mtime" := PFloat m]>
            (<[imageset_name +:+ "_idx" := PInt 0]> config)).
  split.
  { rewrite (load_images_reload_runs images image_name imageset_name im fs
               config m is_dir raw Hstat Hnew Hfiles Hdec).
    rewrite Hfil. reflexivity. }
  assert (Hlen : length loaded = length (source_files w image_name is_dir)).
  { rewrite (filter_all_length _ _ _ Hfil). now apply decode_all_length with im. }
  assert (Hdiff : imageset_name +:+ "_mtime" <> imageset_name +:+ "_idx").
  { intros E. apply append_cancel_l in E. discriminate E. }
  split; [exact Hlen|]. split.
  - intros ->. cbn in Hlen.
    destruct (source_files w image_name is_dir); [congruence|discriminate].
  - split; [|split].
    + rewrite lookup_insert_ne by exact Hdiff. apply lookup_insert_eq.
    + apply lookup_insert_eq.
    + intros key H1 H2. rewrite !lookup_insert_ne by congruence. reflexivity.
Qed.

(** X7: once a source has been loaded, the next call on an unchanged
    file system hits the cache: it returns the images it is given and
    leaves the configuration alone. *)
Theorem load_images_second_call_cached images image_name imageset_name im fs
    (config config' : dict) m is_dir loaded
    (Hstat : fs_stat w image_name = Some (m, is_dir))
    (Hm : PrimFloat.eqb m m = true)
    (Hnew : float_eq_py m (dict_get config (imageset_name +:+ "_mtime") PNone) = false)
    (Hload : load_images cv2_resize width height w images image_name imageset_name
               im fs config = (Ret (Some loaded), config')) :
  load_images cv2_resize width height w (Some loaded) image_name imageset_name
    im fs config' = (Ret (Some loaded), config').
Proof.
  apply load_images_cached with m is_dir; [exact Hstat|].
  revert Hload. unfold load_images, try_except, bind, get, put.
  rewrite Hstat. cbn. rewrite Hnew. cbn.
  assert (Hrel : forall files,
    (let (o, s') := reload_images cv2_resize width height w m files imageset_name im fs
                      (<[imageset_name +:+ "_idx" := PInt 0]> config) in
     match o with
     | Ret a => (Ret a, s')
     | Raise e' => if decide (e' = OSError) then ret None s' else (Raise e', s')
     end) = (Ret (Some loaded), config') ->
    float_eq_py m (dict_get config' (imageset_name +:+ "_mtime") PNone) = true).
  { intros files. unfold reload_images, bind, lift, get, put.
    destruct (decode_all cv2_resize width height w im files) as [raw|e].
    - destruct (filter_all fs raw) as [l|e]; cbn.
      + intros H. injection H as _ <-. unfold dict_get.
        rewrite lookup_insert_eq. exact Hm.
      + destruct (decide (e = OSError)); [|discriminate].
        unfold ret. discriminate.
    - cbn. destruct (decide (e = OSError)); [|discriminate]. unfold ret. discriminate. }
  destruct is_dir.
  - destruct (fs_glob w (image_name +:+ "/*.*")) as [|f0 fl].
    + cbn. unfold ret. discriminate.
    + apply Hrel.
  - apply Hrel.
Qed.

(** X9: the handler of [load_images] also catches an OSError that a
    filter raises during the reload: the result is [None], although the
    index and the mtime of the set have been stored by then. *)
Theorem load_images_filter_oserror images image_name imageset_name im fs
    (config : dict) m is_dir raw
    (Hstat : fs_stat w image_name = Some (m, is_dir))
    (Hnew : float_eq_py m (dict_get config (imageset_name +:+ "_mtime") PNone) = false)
    (Hfiles : source_files w image_name is_dir <> [])
    (Hdec : decode_all cv2_resize width height w im (source_files w image_name is_dir)
            = Ret raw)
    (Hfil : filter_all fs raw = Raise OSError) :
  load_images cv2_resize width height w images image_name imageset_name im fs config
    = (Ret None,
       <[imageset_name +:+ "_mtime" := PFloat m]>
         (<[imageset_name +:+ "_idx" := PInt 0]> config)).
Proof.
  rewrite (load_images_reload_runs images image_name imageset_name im fs
             config m is_dir raw Hstat Hnew Hfiles Hdec).
  rewrite Hfil. reflexivity.
Qed.

End MoreLoadImages.

Lemma load_images_unchanged_mtime_witness :
  Fixture.load_images Fixture.emptied_directory None "overlays_dir" "overlays"
    (ObjVal PNone) [] Fixture.emptied_directory_config
  = (Ret None, Fixture.emptied_directory_config).
Proof.
  apply (load_images_unchanged_mtime Fixture.cv2_resize 1 1 Fixture.emptied_directory
           None "overlays_dir" "overlays" (ObjVal PNone) []
           Fixture.emptied_directory_config 5%float true); reflexivity.
Defined.

Lemma load_images_reloads_witness :
  exists config' : dict,
    Fixture.load_images Fixture.filtered None "background.jpg" "replacement_bgs"
      (ObjVal PNone) [total_filter Sample.inverted] default_config
      = (Ret (Some [Image 1 1 3 [[252; 253; 254]]]), config') /\
    length [Image 1 1 3 [[252; 253; 254]]]
      = length (source_files Fixture.filtered "background.jpg" false) /\
    [Image 1 1 3 [[252; 253; 254]]] <> [] /\
    config' !! ("replacement_bgs" +:+ "_idx") = Some (PInt 0) /\
    config' !! ("replacement_bgs" +:+ "_mtime") = Some (PFloat 2) /\
    forall key : string,
      key <> "replacement_bgs" +:+ "_idx" -> key <> "replacement_bgs" +:+ "_mtime" ->
      config' !! key = default_config !! key.
Proof.
  apply (load_images_reloads Fixture.cv2_resize 1 1 Fixture.filtered None
           "background.jpg" "replacement_bgs" (ObjVal PNone)
           [total_filter Sample.inverted] default_config 2%float false
           [Image 1 1 3 [[3; 2; 1]]] [Image 1 1 3 [[252; 253; 254]]]);
    try reflexivity.
  discriminate.
Defined.

Lemma load_images_second_call_cached_witness :
  Fixture.load_images Fixture.filtered (Some [Image 1 1 3 [[3; 2; 1]]])
    "background.jpg" "replacement_bgs" (ObjVal PNone) []
    (<["replacement_bgs_mtime" := PFloat 2]>
       (<["replacement_bgs_idx" := PInt 0]> default_config))
  = (Ret (Some [Image 1 1 3 [[3; 2; 1]]]),
     <["replacement_bgs_mtime" := PFloat 2]>
       (<["replacement_bgs_idx" := PInt 0]> default_config)).
Proof.
  apply (load_images_second_call_cached Fixture.cv2_resize 1 1 Fixture.filtered None
           "background.jpg" "replacement_bgs" (ObjVal PNone) [] default_config
           (<["replacement_bgs_mtime" := PFloat 2]>
              (<["replacement_bgs_idx" := PInt 0]> default_config))
           2%float false [Image 1 1 3 [[3; 2; 1]]]); reflexivity.
Defined.

Lemma load_images_filter_oserror_witness :
  Fixture.load_images Fixture.filtered None "background.jpg" "replacement_bgs"
    (ObjVal PNone) [Sample.failing_filter] default_config
  = (Ret None,
     <["replacement_bgs" +:+ "_mtime" := PFloat 2]>
       (<["replacement_bgs" +:+ "_idx" := PInt 0]> default_config)).
Proof.
  apply (load_images_filter_oserror Fixture.cv2_resize 1 1 Fixture.filtered None
           "background.jpg" "replacement_bgs" (ObjVal PNone) [Sample.failing_filter]
           default_config 2%float false [Image 1 1 3 [[3; 2; 1]]]);
    try reflexivity.
  discriminate.
Defined.

Lemma load_images_decode_fails_witness :
  Fixture.load_images Sample.undecodable None "background.jpg" "replacement_bgs"
    (ObjVal PNone) [] default_config
  = (Raise CvError, <["replacement_bgs" +:+ "_idx" := PInt 0]> default_config).
Proof.
  apply (load_images_decode_fails Fixture.cv2_resize 1 1 Sample.undecodable None
           "background.jpg" "replacement_bgs" (ObjVal PNone) [] default_config 2%float);
    reflexivity.
Defined.

(** ** Filter chains *)

Lemma apply_filters_app (fs1 fs2 : list callable) (x : image) :
  apply_filters (fs1 ++ fs2)%list x = obind (apply_filters fs1 x) (apply_filters fs2).
Proof.
  revert x. induction fs1 as [|f fs1 IH]; intros x; [reflexivity|].
  cbn [app apply_filters]. destruct (apply_filter f x) as [y|e]; cbn [obind].
  - apply IH.
  - reflexivity.
Qed.

(** X11: a filter call that raises TypeError is skipped: the chain goes
    on with the image as it was, as if the filter were not listed. *)
Theorem apply_filters_skips_type_error (fs1 fs2 : list callable) (f : callable)
    (x y : image)
    (Hpre : apply_filters fs1 x = Ret y)
    (Hf : f y = Raise TypeError) :
  apply_filters (fs1 ++ f :: fs2)%list x = apply_filters (fs1 ++ fs2)%list x.
Proof.
  rewrite !apply_filters_app, Hpre. cbn [obind apply_filters].
  unfold apply_filter. rewrite Hf. reflexivity.
Qed.

Lemma apply_filters_skips_type_error_witness :
  apply_filters ([total_filter Sample.inverted] ++ Sample.misused_filter
                   :: [total_filter Sample.inverted])%list (Fixture.px1 1 2 3)
  = apply_filters ([total_filter Sample.inverted] ++ [total_filter Sample.inverted])%list
      (Fixture.px1 1 2 3).
Proof.
  apply (apply_filters_skips_type_error [total_filter Sample.inverted]
           [total_filter Sample.inverted] Sample.misused_filter
           (Fixture.px1 1 2 3) (Fixture.px1 254 253 252)); reflexivity.
Defined.

(** X12: any other exception of a filter ends the chain and leaves it. *)
Theorem apply_filters_propagates (fs1 fs2 : list callable) (f : callable)
    (x y : image) (e : exn)
    (Hpre : apply_filters fs1 x = Ret y)
    (Hf : f y = Raise e) (He : e <> TypeError) :
  apply_filters (fs1 ++ f :: fs2)%list x = Raise e.
Proof.
  rewrite apply_filters_app, Hpre. cbn [obind apply_filters].
  unfold apply_filter. rewrite Hf. destruct e; try reflexivity. congruence.
Qed.

Lemma apply_filters_propagates_witness :
  apply_filters ([total_filter Sample.inverted] ++ Sample.broken_filter
                   :: [total_filter Sample.inverted])%list (Fixture.px1 1 2 3)
  = Raise ValueError.
Proof.
  apply (apply_filters_propagates [total_filter Sample.inverted]
           [total_filter Sample.inverted] Sample.broken_filter
           (Fixture.px1 1 2 3) (Fixture.px1 254 253 252) ValueError);
    try reflexivity.
  discriminate.
Defined.

Lemma apply_filters_total (gs : list (image -> image)) (x : image) :
  apply_filters (map total_filter gs) x = Ret (fold_left (fun a g => g a) gs x).
Proof.
  revert x. induction gs as [|g gs IH]; intros x; [reflexivity|].
  cbn [map apply_filters fold_left]. unfold apply_filter, total_filter at 1.
  cbn [obind]. apply IH.
Qed.

(** X13: filters that do not fail are applied to every image once, in
    the order of the chain, and the images keep their order. *)
Theorem filter_all_total (gs : list (image -> image)) (images : list image) :
  filter_all (map total_filter gs) images
  = Ret (map (fun x => fold_left (fun a g => g a) gs x) images).
Proof.
  induction images as [|x rest IH]; [reflexivity|].
  cbn [filter_all map]. rewrite apply_filters_total. cbn [obind].
  rewrite IH. reflexivity.
Qed.

(** ** The filter chain resolver *)

Section Resolver.

Variable get_filter : pyval -> outcome filterfn.

Lemma get_imagefilters_loop_lists (items : list pyval) (acc slots : list filter_slot)
    (vars vars' : option closure_vars) :
  Forall is_list_spec items ->
  get_imagefilters_loop get_filter items acc vars = Ret (slots, vars') ->
  slots = (acc ++ replicate (length items) SlotLambda)%list.
Proof.
  intros Hall. revert acc vars.
  induction Hall as [|item items [l ->] _ IH]; intros acc vars H.
  - cbn in H. injection H as <- _. cbn. now rewrite app_nil_r.
  - cbn [get_imagefilters_loop] in H. destruct l as [|name params]; [discriminate|].
    destruct (match params with
              | [PList l] => (l, [])
              | [PDict d] => ([], d)
              | _ => (params, [])
              end) as [args kwargs].
    destruct (get_filter name) as [f|e]; [|discriminate]. cbn [obind] in H.
    apply IH in H. rewrite H, <- app_assoc. reflexivity.
Qed.

Lemma get_imagefilters_loop_app (xs ys : list pyval) (acc : list filter_slot)
    (vars : option closure_vars) :
  get_imagefilters_loop get_filter (xs ++ ys)%list acc vars
  = obind (get_imagefilters_loop get_filter xs acc vars)
      (fun r => get_imagefilters_loop get_filter ys (fst r) (snd r)).
Proof.
  revert acc vars. induction xs as [|x xs IH]; intros acc vars; [reflexivity|].
  cbn [app get_imagefilters_loop].
  destruct x as [| | | |n|l|]; try apply IH.
  - destruct (get_filter (PStr n)) as [f|e]; cbn [obind]; [apply IH|reflexivity].
  - destruct l as [|name params]; [reflexivity|].
    destruct (match params with
              | [PList l] => (l, [])
              | [PDict d] => ([], d)
              | _ => (params, [])
              end) as [args kwargs].
    destruct (get_filter name) as [f|e]; cbn [obind]; [apply IH|reflexivity].
Qed.

(** X16: the callables built for list entries read the variables of
    [get_imagefilters] when they are called: in a chain of list entries
    every callable calls the filter of the last entry with the arguments
    of the last entry, whichever entry it was built for. *)
Theorem get_imagefilters_last_entry_wins (earlier : list pyval) (name : pyval)
    (params : list pyval) (fs : list callable) (F : filterfn)
    (Hall : Forall is_list_spec earlier)
    (Hname : get_filter name = Ret F)
    (Hres : get_imagefilters get_filter (PList (earlier ++ [PList (name :: params)]))
            = Ret fs) :
  length fs = S (length earlier) /\
  forall (f : callable) (frame : image), In f fs ->
    f frame = match params with
              | [PList l] => F frame l []
              | [PDict d] => F frame [] d
              | _ => F frame params []
              end.
Proof.
  unfold get_imagefilters in Hres. cbn [py_iter obind] in Hres.
  rewrite get_imagefilters_loop_app in Hres.
  destruct (get_imagefilters_loop get_filter earlier [] None) as [[slots0 vars0]|e] eqn:E;
    [|discriminate].
  cbn [obind fst snd get_imagefilters_loop] in Hres.
  apply get_imagefilters_loop_lists in E; [|exact Hall]. cbn [app] in E. subst slots0.
  assert (Hshape : exists args kwargs,
            (match params with
             | [PList l] => (l, [])
             | [PDict d] => ([], d)
             | _ => (params, [])
             end) = (args, kwargs) /\
            forall frame, F frame args kwargs
                          = match params with
                            | [PList l] => F frame l []
                            | [PDict d] => F frame [] d
                            | _ => F frame params []
                            end).
  { destruct params as [|p [|q r]]; [|destruct p|destruct p];
      eexists _, _; split; reflexivity. }
  destruct Hshape as (args & kwargs & Hm & Hcall). rewrite Hm, Hname in Hres.
  cbn [obind] in Hres. injection Hres as <-. split.
  - rewrite length_map, length_app, length_replicate. cbn. lia.
  - intros f frame Hin. apply in_map_iff in Hin. destruct Hin as (slot & <- & Hin).
    apply in_app_or in Hin. destruct Hin as [Hin|[<-|[]]].
    + apply list_elem_of_In, elem_of_replicate in Hin. destruct Hin as [-> _].
      cbn. apply Hcall.
    + cbn. apply Hcall.
Qed.

(** X14: string entries are resolved on the spot, one callable per name,
    in the order of the list; each calls its filter without arguments. *)
Theorem get_imagefilters_names (names : list string) (F : string -> filterfn)
    (Hknown : forall n, In n names -> get_filter (PStr n) = Ret (F n)) :
  get_imagefilters get_filter (PList (map PStr names))
  = Ret (map (fun n frame => F n frame [] []) names).
Proof.
  unfold get_imagefilters. cbn [py_iter obind].
  assert (Hloop : forall acc vars,
            get_imagefilters_loop get_filter (map PStr names) acc vars
            = Ret ((acc ++ map (fun n => SlotFilter (F n)) names)%list, vars)).
  { induction names as [|n names IH]; intros acc vars.
    - cbn. now rewrite app_nil_r.
    - cbn [map get_imagefilters_loop]. rewrite (Hknown n) by now left.
      cbn [obind]. rewrite IH by (intros; apply Hknown; now right).
      rewrite <- app_assoc. reflexivity. }
  rewrite Hloop. cbn [obind app]. f_equal. rewrite map_map. reflexivity.
Qed.

(** X15: a name [get_filter] rejects makes the whole resolution fail
    with the exception of [get_filter]; no shorter chain is returned. *)
Theorem get_imagefilters_fails_fast (before after : list string) (n : string)
    (F : string -> filterfn) (e : exn)
    (Hknown : forall k, In k before -> get_filter (PStr k) = Ret (F k))
    (Hbad : get_filter (PStr n) = Raise e) :
  get_imagefilters get_filter (PList (map PStr (before ++ n :: after))) = Raise e.
Proof.
  unfold get_imagefilters. cbn [py_iter obind].
  rewrite map_app, get_imagefilters_loop_app.
  assert (Hloop : forall acc vars,
            exists acc', get_imagefilters_loop get_filter (map PStr before) acc vars
                         = Ret (acc', vars)).
  { induction before as [|k before IH]; intros acc vars.
    - eexists. reflexivity.
    - cbn [map get_imagefilters_loop]. rewrite (Hknown k) by now left.
      cbn [obind]. apply IH. intros; apply Hknown; now right. }
  destruct (Hloop [] None) as [acc' ->].
  cbn [obind map get_imagefilters_loop fst snd]. rewrite Hbad. reflexivity.
Qed.

End Resolver.

Lemma get_imagefilters_names_witness :
  get_imagefilters Fixture.get_filter (PList (map PStr ["invert"; "invert"]))
  = Ret (map (fun (n : string) frame => Fixture.invert frame [] []) ["invert"; "invert"]).
Proof.
  apply (get_imagefilters_names Fixture.get_filter ["invert"; "invert"]
           (fun _ => Fixture.invert)).
  intros n [<-|[<-|[]]]; reflexivity.
Defined.

Lemma get_imagefilters_fails_fast_witness :
  get_imagefilters Fixture.get_filter
    (PList (map PStr (["invert"] ++ "sepia" :: ["invert"])%list)) = Raise KeyError.
Proof.
  apply (get_imagefilters_fails_fast Fixture.get_filter ["invert"] ["invert"] "sepia"
           (fun _ => Fixture.invert) KeyError).
  - intros k [<-|[]]. reflexivity.
  - reflexivity.
Defined.

Lemma get_imagefilters_last_entry_wins_witness :
  let fs := [call_slot (Some (ClosureVars Fixture.invert [PInt 5] [])) SlotLambda;
             call_slot (Some (ClosureVars Fixture.invert [PInt 5] [])) SlotLambda] in
  length fs = S (length [PList [PStr "invert"; PList [PInt 1; PInt 2]]]) /\
  forall (f : callable) (frame : image), In f fs ->
    f frame = match [PInt 5] with
              | [PList l] => Fixture.invert frame l []
              | [PDict d] => Fixture.invert frame [] d
              | _ => Fixture.invert frame [PInt 5] []
              end.
Proof.
  apply (get_imagefilters_last_entry_wins Fixture.get_filter
           [PList [PStr "invert"; PList [PInt 1; PInt 2]]] (PStr "invert") [PInt 5]
           [call_slot (Some (ClosureVars Fixture.invert [PInt 5] [])) SlotLambda;
            call_slot (Some (ClosureVars Fixture.invert [PInt 5] [])) SlotLambda]
           Fixture.invert).
  - repeat constructor. eexists. reflexivity.
  - reflexivity.
  - reflexivity.
Defined.

(** ** Early ends of the iteration *)

Section MoreMainloop.

Variable get_filter : pyval -> outcome filterfn.
Variable cv2_resize : image -> Z * Z -> interp -> outcome image.
Variable cv2_flip : image -> Z -> image.
Variable cv2_dilate cv2_erode cv2_blur : fmask -> pyval -> outcome fmask.
Variable width height : Z.
Variable w : world.

(** X17: a failed capture ends the iteration with SystemExit, once the
    configuration has been reloaded and before anything else is touched. *)
Theorem mainloop_capture_failure (s : store) (config' : dict) (frame : image)
    (Hcfg : load_config w (config s) = (Ret tt, config'))
    (Hcap : cap_read w = (false, frame)) :
  mainloop get_filter cv2_resize cv2_flip cv2_dilate cv2_erode cv2_blur width height w s
  = (Raise SystemExit, Store config' (masks s) (replacement_bgs s) (overlays s)).
Proof.
  unfold mainloop, bind, on_config. rewrite Hcfg, Hcap. reflexivity.
Qed.

(** X18: without a background that can be stat'ed and without background
    filters, the iteration hands the camera frame on, its channels
    reversed: the mask history and the overlays are not touched and the
    segmentation is not consulted. *)
Theorem mainloop_passes_frame_through (s : store) (config' : dict) (frame : image)
    (image_name : string)
    (Hcfg : load_config w (config s) = (Ret tt, config'))
    (Hcap : cap_read w = (true, frame))
    (Hfil : get_imagefilters get_filter (dict_get config' "background_filters" (PList []))
            = Ret [])
    (Hname : dict_get config' "background_image" (PStr "background.jpg") = PStr image_name)
    (Hstat : fs_stat w image_name = None) :
  mainloop get_filter cv2_resize cv2_flip cv2_dilate cv2_erode cv2_blur width height w s
  = (Ret (reverse_channels (flipped cv2_flip config' frame)),
     Store config' (masks s) None (overlays s)).
Proof.
  unfold mainloop, bind, on_config, get, lift. rewrite Hcfg, Hcap.
  cbn [negb config]. rewrite Hfil, Hname. cbn [py_path].
  unfold refresh_background, bind, get, on_config, set_replacement_bgs, ret.
  cbn [config replacement_bgs masks overlays].
  rewrite (load_images_stat_fails cv2_resize width height w _ _ _ _ _ _ Hstat).
  reflexivity.
Qed.

End MoreMainloop.

Lemma mainloop_capture_failure_witness :
  Fixture.mainloop Sample.no_camera (Store default_config [] None None)
  = (Raise SystemExit, Store default_config [] None None).
Proof.
  apply (mainloop_capture_failure Fixture.get_filter Fixture.cv2_resize Fixture.cv2_flip
           Fixture.cv2_morph Fixture.cv2_morph Fixture.cv2_morph 1 1 Sample.no_camera
           (Store default_config [] None None) default_config (Image 0 0 0 []));
    reflexivity.
Defined.

Lemma mainloop_passes_frame_through_witness :
  Fixture.mainloop Fixture.bare
    (Store default_config [NdArray 1 1 [1]] (Some [Fixture.px1 1 2 3]) None)
  = (Ret (reverse_channels (flipped Fixture.cv2_flip default_config (Fixture.px1 10 20 30))),
     Store default_config [NdArray 1 1 [1]] None None).
Proof.
  apply (mainloop_passes_frame_through Fixture.get_filter Fixture.cv2_resize
           Fixture.cv2_flip Fixture.cv2_morph Fixture.cv2_morph Fixture.cv2_morph 1 1
           Fixture.bare
           (Store default_config [NdArray 1 1 [1]] (Some [Fixture.px1 1 2 3]) None)
           default_config (Fixture.px1 10 20 30) "background.jpg"); reflexivity.
Defined.

(** ** Compositing the overlay *)

Lemma rgba_pixel_inv (al : Z) (px : list Z) :
  rgba_pixel al px ->
  exists r g b, px = [r; g; b; al] /\ is_uint8 r /\ is_uint8 g /\ is_uint8 b.
Proof.
  intros (Hl & Hu & Ha). destruct px as [|r [|g [|b [|a [|? ?]]]]]; try discriminate.
  cbn in Ha. subst a.
  inversion Hu as [|? ? Hr Hu1]; subst. inversion Hu1 as [|? ? Hg Hu2]; subst.
  inversion Hu2 as [|? ? Hb _]; subst. eauto 10.
Qed.

Lemma overlay_pixel_three_passes (al : Z) (fpx opx : list Z) :
  (al = 255 \/ al = 0) -> rgb_pixel fpx -> rgba_pixel al opx ->
  let a := PrimFloat.div (Z_to_float (nth 3 opx 0)) 255 in
  let pass (c : nat) (px : list Z) :=
    blend_pixel c (px, PrimFloat.sub 1 a) (opx, a) in
  pass 2%nat (pass 1%nat (pass 0%nat fpx)) = if al =? 255 then take 3 opx else fpx.
Proof.
  intros Hal Hf Ho.
  destruct (rgb_pixel_inv fpx Hf) as (f0 & f1 & f2 & -> & Hf0 & Hf1 & Hf2).
  destruct (rgba_pixel_inv al opx Ho) as (o0 & o1 & o2 & -> & Ho0 & Ho1 & Ho2).
  destruct (blend_boundary f0 o0 Hf0 Ho0) as [Z0 U0].
  destruct (blend_boundary f1 o1 Hf1 Ho1) as [Z1 U1].
  destruct (blend_boundary f2 o2 Hf2 Ho2) as [Z2 U2].
  change (PrimFloat.sub 1 0) with 1%float in Z0, Z1, Z2.
  change (PrimFloat.sub 1 1) with 0%float in U0, U1, U2.
  cbv zeta. unfold blend_pixel. cbn [fst snd nth].
  destruct Hal as [-> | ->].
  - assert (Ha : PrimFloat.div (Z_to_float 255) 255 = 1%float) by (vm_compute; reflexivity).
    rewrite Ha. change (PrimFloat.sub 1 1) with 0%float.
    rewrite Z0. cbn [list_insert insert nth]. rewrite Z1.
    cbn [list_insert insert nth]. rewrite Z2. reflexivity.
  - assert (Ha : PrimFloat.div (Z_to_float 0) 255 = 0%float) by (vm_compute; reflexivity).
    rewrite Ha. change (PrimFloat.sub 1 0) with 1%float.
    rewrite U0. cbn [list_insert insert nth]. rewrite U1.
    cbn [list_insert insert nth]. rewrite U2. reflexivity.
Qed.

Lemma overlay_pixels_three_passes (al : Z) (F O : list (list Z)) :
  (al = 255 \/ al = 0) ->
  Forall rgb_pixel F -> Forall (rgba_pixel al) O -> length O = length F ->
  let A := map (fun px => PrimFloat.div (Z_to_float (nth 3 px 0)) 255) O in
  let pass (c : nat) (px : list (list Z)) :=
    zip_with (blend_pixel c) (zip px (map (fun x => PrimFloat.sub 1 x) A)) (zip O A) in
  pass 2%nat (pass 1%nat (pass 0%nat F)) = if al =? 255 then map (take 3) O else F.
Proof.
  intros Hal HF. revert O.
  induction HF as [|fpx F Hf HF IH]; intros O HO Hlen; cbv zeta.
  - destruct O; [|discriminate]. destruct (al =? 255); reflexivity.
  - destruct O as [|opx O]; [discriminate|].
    inversion HO as [|? ? Ho HO']; subst.
    cbn [zip zip_with map].
    specialize (IH O HO' ltac:(cbn in Hlen; lia)). cbv zeta in IH.
    pose proof (overlay_pixel_three_passes al fpx opx Hal Hf Ho) as P.
    cbv zeta in P. rewrite IH, P.
    destruct (al =? 255); reflexivity.
Qed.

Lemma composite_overlay_uniform (al : Z) (frame overlay : image) (ovs : list image)
    (idx : pyval) :
  (al = 255 \/ al = 0) ->
  py_index ovs idx = Ret overlay ->
  image_wf frame -> image_wf overlay ->
  img_c frame = 3%nat -> img_c overlay = 4%nat ->
  img_h overlay = img_h frame -> img_w overlay = img_w frame ->
  uniform_alpha al overlay ->
  composite_overlay frame ovs idx
  = Ret (if al =? 255
         then Image (img_h frame) (img_w frame) 3 (map (take 3) (img_px overlay))
         else frame).
Proof.
  intros Hal Hidx Hf Ho Hfc Hoc Hh Hw Hall.
  pose proof (image_wf_rgb frame Hf Hfc) as HF.
  destruct Hf as [HlF _]. destruct Ho as [HlO HO].
  destruct frame as [fh fw fc F]. destruct overlay as [oh ow oc O].
  unfold uniform_alpha in Hall. cbn in *. subst.
  assert (HO' : Forall (rgba_pixel al) O).
  { rewrite Forall_forall in *. intros px Hpx. destruct (HO px Hpx) as [H1 H2].
    repeat split; auto. }
  pose proof (overlay_pixels_three_passes al F O Hal HF HO' ltac:(lia)) as H3.
  cbv zeta in H3.
  unfold composite_overlay. rewrite Hidx. cbn [obind img_c Nat.eqb negb].
  cbn [fold_left obind].
  rewrite blend_channel_runs by (cbn; (reflexivity || lia)).
  cbn [obind img_h img_w img_c img_px invert_mask overlay_alpha nd_map nd_data].
  rewrite blend_channel_runs by (cbn; (reflexivity || lia)).
  cbn [obind img_h img_w img_c img_px invert_mask overlay_alpha nd_map nd_data].
  rewrite blend_channel_runs by (cbn; (reflexivity || lia)).
  cbn [obind img_h img_w img_c img_px invert_mask overlay_alpha nd_map nd_data].
  rewrite H3. destruct (al =? 255); reflexivity.
Qed.

(** X19: an overlay that is opaque everywhere (alpha 255) replaces the frame:
    the result has the overlay's red, green and blue at every pixel. *)
Theorem composite_overlay_opaque (frame overlay : image) (ovs : list image)
    (idx : pyval)
    (Hidx : py_index ovs idx = Ret overlay)
    (Hf : image_wf frame) (Ho : image_wf overlay)
    (Hfc : img_c frame = 3%nat) (Hoc : img_c overlay = 4%nat)
    (Hh : img_h overlay = img_h frame) (Hw : img_w overlay = img_w frame)
    (Hall : uniform_alpha 255 overlay) :
  composite_overlay frame ovs idx
  = Ret (Image (img_h frame) (img_w frame) 3 (map (take 3) (img_px overlay))).
Proof.
  rewrite (composite_overlay_uniform 255 frame overlay ovs idx); auto.
Qed.

(** X20: an overlay that is transparent everywhere (alpha 0) leaves the frame
    as it is. *)
Theorem composite_overlay_transparent (frame overlay : image) (ovs : list image)
    (idx : pyval)
    (Hidx : py_index ovs idx = Ret overlay)
    (Hf : image_wf frame) (Ho : image_wf overlay)
    (Hfc : img_c frame = 3%nat) (Hoc : img_c overlay = 4%nat)
    (Hh : img_h overlay = img_h frame) (Hw : img_w overlay = img_w frame)
    (Hall : uniform_alpha 0 overlay) :
  composite_overlay frame ovs idx = Ret frame.
Proof.
  rewrite (composite_overlay_uniform 0 frame overlay ovs idx); auto.
Qed.

(** X21: an overlay without an alpha channel stops the iteration at the
    assertion of line 346, whatever the frame. *)
Theorem composite_overlay_needs_alpha (frame overlay : image) (ovs : list image)
    (idx : pyval)
    (Hidx : py_index ovs idx = Ret overlay)
    (Hoc : img_c overlay <> 4%nat) :
  composite_overlay frame ovs idx = Raise AssertionError.
Proof.
  unfold composite_overlay. rewrite Hidx. cbn [obind].
  destruct (Nat.eqb_spec (img_c overlay) 4); [contradiction|reflexivity].
Qed.

Lemma composite_overlay_opaque_witness :
  composite_overlay (Fixture.px1 10 20 30) [Fixture.px1a 1 2 3 255] (PInt 0)
  = Ret (Image (img_h (Fixture.px1 10 20 30)) (img_w (Fixture.px1 10 20 30)) 3
           (map (take 3) (img_px (Fixture.px1a 1 2 3 255)))).
Proof.
  apply (composite_overlay_opaque (Fixture.px1 10 20 30) (Fixture.px1a 1 2 3 255)
           [Fixture.px1a 1 2 3 255] (PInt 0)); try reflexivity.
  - split; [reflexivity|]. repeat constructor; unfold is_uint8; lia.
  - split; [reflexivity|]. repeat constructor; unfold is_uint8; lia.
  - repeat constructor.
Defined.

Lemma composite_overlay_transparent_witness :
  composite_overlay (Fixture.px1 10 20 30) [Fixture.px1a 1 2 3 0] (PInt 0)
  = Ret (Fixture.px1 10 20 30).
Proof.
  apply (composite_overlay_transparent (Fixture.px1 10 20 30) (Fixture.px1a 1 2 3 0)
           [Fixture.px1a 1 2 3 0] (PInt 0)); try reflexivity.
  - split; [reflexivity|]. repeat constructor; unfold is_uint8; lia.
  - split; [reflexivity|]. repeat constructor; unfold is_uint8; lia.
  - repeat constructor.
Defined.

Lemma composite_overlay_needs_alpha_witness :
  composite_overlay (Fixture.px1 10 20 30) [Fixture.px1 1 2 3] (PInt 0)
  = Raise AssertionError.
Proof.
  apply (composite_overlay_needs_alpha (Fixture.px1 10 20 30) (Fixture.px1 1 2 3)
           [Fixture.px1 1 2 3] (PInt 0)).
  - reflexivity.
  - cbn. lia.
Defined.

(** ** The mask history, the debug view, the channels, the timers *)

(** X22: the history holds the new mask and at most [max(1, average_masks)]
    masks after every push, from whatever history the push started; a
    missing setting counts as 3. *)
Theorem average_masks_history_bound (s : store) (m : imask) (k : Z)
    (Hk : dict_get (config s) "average_masks" (PInt 3) = PInt k) :
  masks (snd (average_masks m s)) = take (Z.to_nat (Z.max 1 k)) (m :: masks s) /\
  (length (masks (snd (average_masks m s))) <= Z.to_nat (Z.max 1 k))%nat /\
  head (masks (snd (average_masks m s))) = Some m.
Proof.
  assert (Hm : masks (snd (average_masks m s))
               = take (Z.to_nat (Z.max 1 k)) (m :: masks s)).
  { unfold average_masks, bind, get, set_masks, lift. cbn. rewrite Hk.
    cbn [py_max_1]. destruct (1 <? k) eqn:E; cbn [py_slice_to].
    - assert ((k <? 0) = false) as -> by lia.
      replace (Z.max 1 k) with k by lia. cbn.
      destruct (np_mean_axis0 (take (Z.to_nat k) (m :: masks s))); reflexivity.
    - replace (Z.max 1 k) with 1 by lia. cbn.
      destruct (np_mean_axis0 [m]); reflexivity. }
  rewrite Hm. split; [reflexivity|]. split.
  - rewrite length_take. lia.
  - assert (Hs : exists j, Z.to_nat (Z.max 1 k) = S j)
      by (exists (Z.to_nat (Z.max 1 k) - 1)%nat; lia).
    destruct Hs as [j ->]. reflexivity.
Qed.

Lemma average_masks_history_bound_witness :
  let m : imask := NdArray 1 1 [1] in
  let s := Store default_config
             [NdArray 1 1 [1]; NdArray 1 1 [0]; NdArray 1 1 [1]; NdArray 1 1 [0]]
             None None in
  masks (snd (average_masks m s)) = take (Z.to_nat (Z.max 1 3)) (m :: masks s) /\
  (length (masks (snd (average_masks m s))) <= Z.to_nat (Z.max 1 3))%nat /\
  head (masks (snd (average_masks m s))) = Some m.
Proof.
  apply (average_masks_history_bound
           (Store default_config
              [NdArray 1 1 [1]; NdArray 1 1 [0]; NdArray 1 1 [1]; NdArray 1 1 [0]]
              None None) (NdArray 1 1 [1]) 3).
  reflexivity.
Defined.

(** X23: with [average_masks] at 1 or below nothing is averaged: the history
    is the new mask alone and the result is that mask as float64. *)
Theorem average_masks_no_smoothing (s : store) (m : imask) (k : Z)
    (Hk : config s !! "average_masks" = Some (PInt k)) (Hle : k <= 1) :
  average_masks m s
  = (Ret (nd_map (fun z => PrimFloat.div (Z_to_float z) 1) m),
     Store (config s) [m] (replacement_bgs s) (overlays s)).
Proof.
  unfold average_masks, bind, get, set_masks, lift, dict_get. cbn. rewrite Hk.
  cbn [py_max_1]. assert ((1 <? k) = false) as -> by lia.
  cbn [py_slice_to Z.ltb Z.compare].
  change (take (Z.to_nat 1) (m :: masks s)) with [m].
  unfold np_mean_axis0. cbn [forallb fold_left length].
  change (Z_to_float (Z.of_nat 1)) with 1%float.
  unfold nd_map. rewrite map_map. reflexivity.
Qed.

Lemma average_masks_no_smoothing_witness :
  let cfg : dict := <["average_masks" := PInt 0]> default_config in
  average_masks (NdArray 1 1 [1]) (Store cfg [NdArray 1 1 [0]] None None)
  = (Ret (nd_map (fun z => PrimFloat.div (Z_to_float z) 1) (NdArray 1 1 [1])),
     Store cfg [NdArray 1 1 [1]] None None).
Proof.
  intros cfg.
  apply (average_masks_no_smoothing (Store cfg [NdArray 1 1 [0]] None None)
           (NdArray 1 1 [1]) 0).
  - reflexivity.
  - lia.
Defined.

(** X24: the debug view is grey: on success the frame keeps its shape and
    every pixel has one uint8 value in its first three channels. *)
Theorem show_mask_grey (frame out : image) (mask : fmask)
    (Hout : show_mask frame mask = Ret out) :
  img_h out = img_h frame /\ img_w out = img_w frame /\ img_c out = img_c frame /\
  Forall (fun px => exists v rest, px = v :: v :: v :: rest /\ is_uint8 v) (img_px out).
Proof.
  unfold show_mask in Hout.
  destruct (img_c frame <? 3)%nat; [discriminate|].
  destruct (negb _); [discriminate|]. injection Hout as <-. cbn.
  repeat split; try reflexivity.
  generalize (nd_data mask) as A. induction (img_px frame) as [|px F IH]; intros A.
  - constructor.
  - destruct A as [|a A]; [constructor|]. cbn [zip_with]. constructor; [|apply IH].
    eexists _, _. split; [reflexivity|].
    unfold is_uint8, cast_uint8. apply Z.mod_pos_bound. lia.
Qed.

Lemma show_mask_grey_witness :
  let out := Image 1 1 3 [[127; 127; 127]] in
  img_h out = img_h (Fixture.px1 10 20 30) /\ img_w out = img_w (Fixture.px1 10 20 30) /\
  img_c out = img_c (Fixture.px1 10 20 30) /\
  Forall (fun px => exists v rest, px = v :: v :: v :: rest /\ is_uint8 v) (img_px out).
Proof.
  apply (show_mask_grey (Fixture.px1 10 20 30) (Image 1 1 3 [[127; 127; 127]])
           (NdArray 1 1 [0.5%float])).
  vm_compute. reflexivity.
Defined.

(** X25: swapping red and blue twice gives the image back, whatever
    further channels it has. *)
Theorem swap_red_blue_involutive (i : image)
    (Hwf : image_wf i) (Hc : (3 <= img_c i)%nat) :
  obind (swap_red_blue i) swap_red_blue = Ret i.
Proof.
  unfold swap_red_blue.
  assert ((img_c i <? 3)%nat = false) as Hlt by (apply Nat.ltb_ge; lia).
  rewrite Hlt. cbn [obind img_c]. rewrite Hlt. cbn [img_h img_w img_c img_px].
  destruct Hwf as [_ Hpx]. destruct i as [h w c px]. cbn in *. f_equal. f_equal.
  rewrite map_map. induction Hpx as [|p px [Hl _] _ IH]; [reflexivity|].
  cbn [map]. rewrite IH. f_equal.
  destruct p as [|b [|g [|r rest]]]; cbn in Hl; try lia. reflexivity.
Qed.

Lemma swap_red_blue_involutive_witness :
  obind (swap_red_blue (Fixture.px1a 1 2 3 255)) swap_red_blue
  = Ret (Fixture.px1a 1 2 3 255).
Proof.
  apply (swap_red_blue_involutive (Fixture.px1a 1 2 3 255)).
  - split; [reflexivity|]. repeat constructor; unfold is_uint8; lia.
  - cbn. lia.
Defined.

(** X26: the timer block writes two entries of the configuration, the index
    and the time of the last advance, and no other, whatever happens. *)
Theorem advance_index_touches_two_keys (idx_key last_key fps_key key : string)
    (idx : pyval) (n : nat) (t t' : float) (config : dict)
    (Hi : key <> idx_key) (Hl : key <> last_key) :
  snd (advance_index idx_key last_key fps_key idx n t t' config) !! key = config !! key.
Proof.
  unfold advance_index, bind, get, lift.
  destruct (advance_due t (dict_get config last_key (PInt 0))
              (dict_get config fps_key (PInt 1))) as [[|]|e]; cbn; try reflexivity.
  destruct (py_next_index idx n) as [next|e]; cbn; [|reflexivity].
  rewrite !lookup_insert_ne by congruence. reflexivity.
Qed.

Lemma advance_index_touches_two_keys_witness :
  snd (advance_index "replacement_bgs_idx" "last_frame_bg" "background_fps"
         (PInt 0) 3 1700000003 1700000003 Fixture.timer_config) !! "background_fps"
  = Fixture.timer_config !! "background_fps".
Proof.
  apply (advance_index_touches_two_keys "replacement_bgs_idx" "last_frame_bg"
           "background_fps" "background_fps" (PInt 0) 3 1700000003 1700000003
           Fixture.timer_config); discriminate.
Defined.

(** ** The timers within an iteration *)












Section Iteration.

Variable get_filter : pyval -> outcome filterfn.
Variable cv2_resize : image -> Z * Z -> interp -> outcome image.
Variable cv2_flip : image -> Z -> image.
Variable cv2_dilate cv2_erode cv2_blur : fmask -> pyval -> outcome fmask.
Variable width height : Z.
Variable w : world.



End Iteration.



(** The first iteration over the two-frame overlay: both timers are
    reached and both fire; the overlay index goes from 0 to 1 and the
    index of the one-frame background from 0 to 0. *)
Example mainloop_first_iteration_advances :
  let s' := snd (Fixture.mainloop Fixture.overlaid (snd (startup Fixture.overlaid))) in
  config s' !! "overlays_idx" = Some (PInt 1) /\
  config s' !! "replacement_bgs_idx" = Some (PInt 0).
Proof. vm_compute. repeat split. Qed.

(** An iteration that hands the frame on reaches no timer: after the
    overlay has advanced to 1, an iteration without a background leaves
    the index and the time of its last advance alone, however late. *)
Example mainloop_handed_on_reaches_no_timer :
  let s1 := snd (Fixture.mainloop Fixture.overlaid (snd (startup Fixture.overlaid))) in
  let r := Fixture.mainloop Fixture.bare s1 in
  fst r = Ret (Image 1 1 3 [[30; 20; 10]]) /\
  config (snd r) !! "overlays_idx" = config s1 !! "overlays_idx" /\
  config (snd r) !! "last_frame_overlay" = config s1 !! "last_frame_overlay".
Proof. vm_compute. repeat split. Qed.
